(** * AgentGraph Streamlit shell (src/agentgraph/src/apps.py)

    A shallow embedding of the page script: the two database-creation
    helpers, the session state, the sidebar, the chat tab and the database
    manager tab.  The script is re-executed from top to bottom on every
    interaction; one execution is a value of the [script] monad below, which
    threads the process state and records every call that leaves the file
    (Streamlit calls, [ChatBot.respond], [PrepareVectorDB]) in a log.

    Static decoration (page configuration, CSS, headings, help text, footer)
    has no effect on the state and is not logged. *)

From Stdlib Require Import String List ZArith Bool Arith Lia.
From stdpp Require Import base option list gmap strings.

#[local] Set Warnings "-register-all".
#[local] Open Scope string_scope.
#[local] Open Scope list_scope.

(** ** Values *)

(** What [yaml.load] can return.  Mapping keys are strings. *)
Inductive yaml :=
| YNull
| YBool (b : bool)
| YInt (z : Z)
| YStr (s : string)
| YSeq (items : list yaml)
| YMap (entries : gmap string yaml).

(** The exceptions the script can see.  All three are instances of Python's
    [Exception]; [Exception text] stands for whatever a collaborator raises,
    with [str(e) = text]. *)
Inductive exn :=
| KeyError (key : string)
| TypeError (text : string)
| Exception (text : string).

(** [repr] of a key that holds no quote and no escape, as all keys of the
    script do. *)
Definition repr (s : string) : string := "'" +:+ s +:+ "'".

(** [str(e)]: a [KeyError] prints the [repr] of the missing key. *)
Definition str (e : exn) : string :=
  match e with
  | KeyError k => repr k
  | TypeError t => t
  | Exception t => t
  end.

(** The keyword arguments of [PrepareVectorDB(...)], lines 30-37. *)
Record db_args := DbArgs {
  doc_dir : yaml;
  chunk_size : yaml;
  chunk_overlap : yaml;
  embedding_model : yaml;
  vectordb_dir : yaml;
  collection_name : yaml
}.

(** One chat turn of [st.session_state.messages]: a dict with the keys
    "role", "content" and "avatar".  The content is a string or [None]. *)
Record message := Message {
  role : string;
  content : option string;
  avatar : string
}.

(** The legacy (gradio) history: a list of (user text, bot text) tuples. *)
Definition legacy_pair : Type := option string * option string.
Definition legacy_history : Type := list legacy_pair.

(** [st.session_state] after lines 90-95. *)
Record session_state := Session {
  messages : list message;
  gradio_chat_history : legacy_history
}.

(** The two keys are created empty on the first execution. *)
Definition initial_session : session_state :=
  {| messages := []; gradio_chat_history := [] |}.

(** What [ChatBot.respond] does: it raises, or returns a 2-tuple whose second
    component is [None] or a history. *)
Inductive respond_result :=
| RespondRaises (e : exn)
| RespondReturns (first : string) (updated : option legacy_history).

(** Every call that leaves the file, in the order it is made. *)
Inductive effect :=
| Spinner (text : string)
| Placeholder
| Info (text : string)
| Success (text : string)
| Warning (text : string)
| Error (text : string)
| Write (text : string)
| Metric (label : string) (value : nat)
| Button (widget : string) (disabled : bool)
| ChatInput
| ChatMessage (who : string) (icon : string) (body : option string)
| ChatError (who : string) (icon : string) (text : string)
| CallInit (args : db_args)
| CallRun (args : db_args)
| CallRespond (history : legacy_history) (prompt : string)
| CallRerun.

(** ** The collaborators *)

(** Everything the script imports and this file does not define: the file
    system, the [.env] file, the YAML configuration, the chatbot and the
    vector-database builder.  [World] is their state; a call may change it. *)
Class Collaborators := {
  World : Type;
  (** [os.path.exists] *)
  path_exists : World -> string -> bool;
  (** [pyprojroot.here]: a path under the project root *)
  here : string -> string;
  (** the value [.env] gives to OPENAI_API_KEY, if any *)
  dotenv_api_key : World -> option string;
  (** [open(here("configs/tools_config.yml"))] followed by [yaml.load] *)
  load_config : World -> exn + yaml;
  (** [ChatBot.respond(history, prompt)] *)
  ChatBot_respond : legacy_history -> string -> World -> respond_result * World;
  (** [PrepareVectorDB(...)]: [Some e] when the constructor raises [e] *)
  PrepareVectorDB_init : db_args -> World -> option exn * World;
  (** [prepare_db_instance.run()]: [Some e] when it raises [e] *)
  PrepareVectorDB_run : db_args -> World -> option exn * World;
  (** the interpreter's message for subscripting a value that is no mapping *)
  not_subscriptable : yaml -> string;
  (** the message of [here] for an argument that is no string *)
  not_a_path : yaml -> string;
  (** [str(v)] of a configuration value inside an f-string *)
  format_value : yaml -> string
}.

(** ** The script monad *)

Section Script.
Context `{Ext : Collaborators}.

(** The process while the script runs: the collaborators' state, the value
    of OPENAI_API_KEY in [os.environ], the session state, and the log. *)
Record runtime := Runtime {
  world : World;
  api_key : option string;
  session : session_state;
  log : list effect
}.

(** How a piece of script ends: normally, with an [Exception], or with the
    rerun signal of [st.rerun()], which is not an [Exception] and which
    [except Exception] therefore lets through. *)
Inductive outcome (A : Type) :=
| Done (a : A)
| Raised (e : exn)
| Rerun.
#[global] Arguments Done {A} a.
#[global] Arguments Raised {A} e.
#[global] Arguments Rerun {A}.

Definition script (A : Type) : Type := runtime -> outcome A * runtime.

Definition ret {A} (a : A) : script A := fun rt => (Done a, rt).

Definition bind {A B} (m : script A) (k : A -> script B) : script B :=
  fun rt =>
    match m rt with
    | (Done a, rt') => k a rt'
    | (Raised e, rt') => (Raised e, rt')
    | (Rerun, rt') => (Rerun, rt')
    end.

Definition raise {A} (e : exn) : script A := fun rt => (Raised e, rt).

(** [try: body / except Exception as e: handler e]. *)
Definition try_except {A} (body : script A) (handler : exn -> script A)
  : script A :=
  fun rt =>
    match body rt with
    | (Raised e, rt') => handler e rt'
    | other => other
    end.

Definition emit (e : effect) : script unit :=
  fun rt => (Done tt, {| world := world rt; api_key := api_key rt;
                         session := session rt; log := log rt ++ [e] |}).

Definition get_session : script session_state :=
  fun rt => (Done (session rt), rt).

Definition put_session (s : session_state) : script unit :=
  fun rt => (Done tt, {| world := world rt; api_key := api_key rt;
                         session := s; log := log rt |}).

Definition ask_world {A} (f : World -> A) : script A :=
  fun rt => (Done (f (world rt)), rt).

Definition call_world {A} (f : World -> A * World) : script A :=
  fun rt => let '(a, w) := f (world rt) in
            (Done a, {| world := w; api_key := api_key rt;
                        session := session rt; log := log rt |}).

Definition lift {A} (r : exn + A) : script A :=
  match r with inl e => raise e | inr a => ret a end.

(** [st.rerun()]: ask for a new execution and stop this one. *)
Definition st_rerun {A} : script A :=
  fun rt => (Rerun, {| world := world rt; api_key := api_key rt;
                       session := session rt; log := log rt ++ [CallRerun] |}).

End Script.

Notation "'do' x <- m ; k" := (bind m (fun x => k))
  (at level 10, x name, m at level 100, k at level 200,
   format "'[v' 'do'  x  <-  m ; '/' k ']'").
Notation "m >> k" := (bind m (fun _ => k))
  (at level 100, k at level 200, right associativity).

(** ** The database-creation helpers (lines 13-80) *)

Section Helpers.
Context `{Ext : Collaborators}.

(** [v[k]] for a string key [k]: a mapping answers or raises [KeyError],
    anything else raises [TypeError]. *)
Definition subscript (v : yaml) (k : string) : exn + yaml :=
  match v with
  | YMap entries =>
      match entries !! k with
      | Some x => inr x
      | None => inl (KeyError k)
      end
  | _ => inl (TypeError (not_subscriptable v))
  end.

(** [app_config[section][field]]. *)
Definition subscript2 (app_config : yaml) (section field : string)
  : exn + yaml :=
  match subscript app_config section with
  | inl e => inl e
  | inr sec => subscript sec field
  end.

(** Lines 19-24 (and 53-58): the six lookups, in the order of the source. *)
Definition extract_configuration (app_config : yaml) (section : string)
  : script db_args :=
  do chunk_size <- lift (subscript2 app_config section "chunk_size");
  do chunk_overlap <- lift (subscript2 app_config section "chunk_overlap");
  do embedding_model <- lift (subscript2 app_config section "embedding_model");
  do vectordb_dir <- lift (subscript2 app_config section "vectordb");
  do collection_name <- lift (subscript2 app_config section "collection_name");
  do doc_dir <- lift (subscript2 app_config section "unstructured_docs");
  ret {| doc_dir := doc_dir; chunk_size := chunk_size;
         chunk_overlap := chunk_overlap; embedding_model := embedding_model;
         vectordb_dir := vectordb_dir; collection_name := collection_name |}.

(** A call of a collaborator that raises or returns nothing. *)
Definition call_raising (f : World -> option exn * World) : script unit :=
  do r <- call_world f;
  match r with
  | Some e => raise e
  | None => ret tt
  end.

(** The body shared by the two helpers, which differ in the section of the
    configuration they read and in three texts. *)
Definition create_database (section spinner created failed : string)
    (app_config : yaml) : script unit :=
  emit (Spinner spinner) >>
  try_except
    (do args <- extract_configuration app_config section;
     emit Placeholder >>
     emit (CallInit args) >>
     call_raising (PrepareVectorDB_init args) >>
     emit (Info "Processing documents and creating embeddings...") >>
     emit (CallRun args) >>
     call_raising (PrepareVectorDB_run args) >>
     emit (Success created) >>
     st_rerun)
    (fun e => emit (Error (failed +:+ str e))).

Definition swiss_section : string := "swiss_airline_policy_rag".
Definition stories_section : string := "stories_rag".

Definition swiss_failed : string := "Error creating Swiss database: ".
Definition stories_failed : string := "Error creating Stories database: ".
Definition swiss_created : string :=
  "✅ Swiss Airline Policy database created successfully!".
Definition stories_created : string :=
  "✅ Stories database created successfully!".

Definition create_swiss_database : yaml -> script unit :=
  create_database swiss_section "Creating Swiss Airline Policy database..."
    swiss_created swiss_failed.

Definition create_stories_database : yaml -> script unit :=
  create_database stories_section "Creating Stories database..."
    stories_created stories_failed.

End Helpers.

(** ** The page (lines 82-440) *)

(** What the browser sends with a rerun: a click on a button, named by its
    [key], or by its label when it has none, or a text submitted in the chat
    input. *)
Inductive event :=
| Click (widget : string)
| Submit (prompt : string).

#[global] Instance event_eq_dec : EqDecision event.
Proof. solve_decision. Defined.

Section Page.
Context `{Ext : Collaborators}.

(** Line 11, [load_dotenv()]: a variable already in the environment is kept,
    a missing one is taken from [.env]. *)
Definition load_dotenv : script unit :=
  fun rt =>
    (Done tt,
     {| world := world rt;
        api_key := match api_key rt with
                   | Some v => Some v
                   | None => dotenv_api_key (world rt)
                   end;
        session := session rt; log := log rt |}).

(** [bool(os.getenv('OPENAI_API_KEY'))]: unset and empty are both false. *)
Definition truthy (v : option string) : bool :=
  match v with
  | Some s => negb (s =? "")%string
  | None => false
  end.

Definition api_key_available : script bool :=
  fun rt => (Done (truthy (api_key rt)), rt).

(** [st.button(...)]: the button is drawn, and the call answers whether this
    execution was triggered by a click on it. *)
Definition st_button (widget : string) (disabled : bool) (ev : option event)
  : script bool :=
  emit (Button widget disabled) >>
  ret match ev with
      | Some (Click w) => (w =? widget)%string
      | _ => false
      end.

(** [st.chat_input(...)]: the submitted text, or [None]. *)
Definition st_chat_input (ev : option event) : script (option string) :=
  emit ChatInput >>
  ret match ev with
      | Some (Submit prompt) => Some prompt
      | _ => None
      end.

Definition when (b : bool) (body : script unit) : script unit :=
  if b then body else ret tt.

(** Lines 188-194 and 324-330. *)
Definition load_app_config : script (option yaml) :=
  do r <- ask_world load_config;
  match r with
  | inl e => emit (Error ("Could not load config: " +:+ str e)) >> ret None
  | inr app_config => ret (Some app_config)
  end.

(** [os.path.exists(here(path))]: [here] joins its argument to the project
    root and raises [TypeError] for anything that is not a string. *)
Definition exists_here (path : yaml) : script bool :=
  match path with
  | YStr p => ask_world (fun w => path_exists w (here p))
  | _ => raise (TypeError (not_a_path path))
  end.

(** Lines 209-213 and 224-228: the indicator of the sidebar. *)
Definition sidebar_status (app_config : yaml) (section : string)
  : script unit :=
  do db_path <- lift (subscript2 app_config section "vectordb");
  do found <- exists_here db_path;
  if found then emit (Success "✅ Ready") else emit (Warning "⚠️ Not created").

(** Lines 237-239 and 406-408. *)
Definition create_all (app_config : yaml) : script unit :=
  emit (Spinner "Creating all databases...") >>
  create_swiss_database app_config >>
  create_stories_database app_config.

Definition clear_chat_label : string := "🗑️ Clear Chat".
Definition sidebar_all_label : string := "🚀 Create All Databases".
Definition bulk_all_label : string := "🔄 Create All Databases".
Definition clear_cache_label : string := "🗑️ Clear Database Cache".

(** Lines 157-160. *)
Definition clear_chat (ev : option event) : script unit :=
  do clicked <- st_button clear_chat_label false ev;
  when clicked
    (put_session {| messages := []; gradio_chat_history := [] |} >>
     st_rerun).

(** Lines 177-181. *)
Definition session_stats : script unit :=
  do s <- get_session;
  match messages s with
  | [] => ret tt
  | _ :: _ =>
      emit (Metric "Messages" (length (messages s))) >>
      emit (Metric "Conversations" (length (messages s) / 2))
  end.

(** Lines 153-239. *)
Definition sidebar (ev : option event) : script unit :=
  clear_chat ev >>
  session_stats >>
  do loaded <- load_app_config;
  match loaded with
  | None => ret tt
  | Some app_config =>
      do available <- api_key_available;
      when (negb available)
        (emit (Error "⚠️ OPENAI_API_KEY not found in environment variables") >>
         emit (Info "Please set your API key in the .env file to create databases")) >>
      sidebar_status app_config swiss_section >>
      (do clicked <- st_button "swiss_create" (negb available) ev;
       when clicked (create_swiss_database app_config)) >>
      sidebar_status app_config stories_section >>
      (do clicked <- st_button "stories_create" (negb available) ev;
       when clicked (create_stories_database app_config)) >>
      (do clicked <- st_button sidebar_all_label (negb available) ev;
       when clicked (create_all app_config))
  end.

(** Line 273: the user turns of the message list, each with no reply. *)
Definition gradio_format (msgs : list message) : legacy_history :=
  map (fun msg => (content msg, None))
      (List.filter (fun msg => (role msg =? "user")%string) msgs).

(** Lines 273-276: when there are more user turns than legacy entries, the
    legacy history becomes [gradio_format[:-1]]. *)
Definition sync_history : script unit :=
  do s <- get_session;
  let format := gradio_format (messages s) in
  when (length (gradio_chat_history s) <? length format)%nat
    (put_session {| messages := messages s;
                    gradio_chat_history := List.removelast format |}).

(** [st.session_state.messages.append(m)]. *)
Definition append_message (m : message) : script unit :=
  do s <- get_session;
  put_session {| messages := messages s ++ [m];
                 gradio_chat_history := gradio_chat_history s |}.

(** Line 294. *)
Definition store_history (updated : legacy_history) : script unit :=
  do s <- get_session;
  put_session {| messages := messages s; gradio_chat_history := updated |}.

Definition user_icon : string := "🧑‍💻".
Definition bot_icon : string := "🤖".
Definition warning_icon : string := "⚠️".
Definition fallback_text : string :=
  "I'm sorry, I couldn't process your request at the moment.".

(** [updated_gradio_history[-1][1]] of a history that is not empty. *)
Definition latest_reply (updated : legacy_history) : option string :=
  snd (List.last updated (None, None)).

(** Lines 279-308: the call and what is done with its result. *)
Definition ask_chatbot (prompt : string) : script unit :=
  do s <- get_session;
  emit (CallRespond (gradio_chat_history s) prompt) >>
  do r <- call_world (ChatBot_respond (gradio_chat_history s) prompt);
  match r with
  | RespondRaises e => raise e
  | RespondReturns _ (Some ((_ :: _) as updated_gradio_history)) =>
      let latest_response := latest_reply updated_gradio_history in
      do found <- ask_world (fun w => path_exists w "images/openai.png");
      let bot_avatar := if found then "images/openai.png" else bot_icon in
      append_message {| role := "assistant"; content := latest_response;
                        avatar := bot_avatar |} >>
      store_history updated_gradio_history >>
      emit (ChatMessage "assistant" bot_avatar latest_response)
  | RespondReturns _ _ =>
      append_message {| role := "assistant"; content := Some fallback_text;
                        avatar := bot_icon |} >>
      emit (ChatMessage "assistant" bot_icon (Some fallback_text))
  end.

(** Lines 256-318: the body of [if prompt := st.chat_input(...)]. *)
Definition chat_handler (prompt : string) : script unit :=
  do found <- ask_world (fun w => path_exists w "images/AI_RT.png");
  let user_avatar := if found then "images/AI_RT.png" else user_icon in
  append_message {| role := "user"; content := Some prompt;
                    avatar := user_avatar |} >>
  emit (ChatMessage "user" user_avatar (Some prompt)) >>
  emit (Spinner "Thinking...") >>
  try_except
    (sync_history >> ask_chatbot prompt)
    (fun e =>
       let error_msg := "An error occurred: " +:+ str e in
       append_message {| role := "assistant"; content := Some error_msg;
                         avatar := warning_icon |} >>
       emit (ChatError "assistant" warning_icon error_msg)).

(** Lines 250-252: one chat bubble for each stored turn. *)
Definition bubble (m : message) : effect :=
  ChatMessage (role m) (avatar m) (content m).

Definition show_history : script unit :=
  fun rt =>
    (Done tt, {| world := world rt; api_key := api_key rt;
                 session := session rt;
                 log := log rt ++ map bubble (messages (session rt)) |}).

(** Lines 244-318.  An empty text is falsy and skips the handler. *)
Definition chat_tab (ev : option event) : script unit :=
  show_history >>
  do submitted <- st_chat_input ev;
  match submitted with
  | Some prompt => when (negb (prompt =? "")%string) (chat_handler prompt)
  | None => ret tt
  end.

(** Lines 353-373 and 376-396: one expander of the manager tab. *)
Definition detail_panel (app_config : yaml) (section widget : string)
    (create : yaml -> script unit) (available : bool) (ev : option event)
  : script unit :=
  do config <- lift (subscript app_config section);
  do db_path <- lift (subscript config "vectordb");
  do found <- exists_here db_path;
  emit (Write ("**Status:** " +:+
               (if found then "✅ Created" else "❌ Not Created"))) >>
  emit (Write ("**Path:** `" +:+ format_value db_path +:+ "`")) >>
  do docs <- lift (subscript config "unstructured_docs");
  emit (Write ("**Documents:** `" +:+ format_value docs +:+ "`")) >>
  do name <- lift (subscript config "collection_name");
  emit (Write ("**Collection:** `" +:+ format_value name +:+ "`")) >>
  do size <- lift (subscript config "chunk_size");
  emit (Write ("**Chunk Size:** " +:+ format_value size)) >>
  do overlap <- lift (subscript config "chunk_overlap");
  emit (Write ("**Overlap:** " +:+ format_value overlap)) >>
  do model <- lift (subscript config "embedding_model");
  emit (Write ("**Model:** " +:+ format_value model)) >>
  do clicked <- st_button widget (negb available) ev;
  when clicked (create app_config).

(** Lines 320-412. *)
Definition database_tab (ev : option event) : script unit :=
  do loaded <- load_app_config;
  match loaded with
  | None => ret tt
  | Some app_config =>
      do available <- api_key_available;
      (if available then emit (Success "🔑 API Key: Ready")
       else emit (Error "🔑 API Key: Missing")) >>
      when (negb available)
        (emit (Warning "Please set OPENAI_API_KEY in your .env file to create vector databases")) >>
      detail_panel app_config swiss_section "swiss_detail_create"
        create_swiss_database available ev >>
      detail_panel app_config stories_section "stories_detail_create"
        create_stories_database available ev >>
      (do clicked <- st_button bulk_all_label (negb available) ev;
       when clicked (create_all app_config)) >>
      (do clicked <- st_button clear_cache_label false ev;
       when clicked
         (emit (Info "This would clear cached embeddings (functionality can be added)")))
  end.

(** The whole script, top to bottom. *)
Definition app (ev : option event) : script unit :=
  load_dotenv >>
  sidebar ev >>
  chat_tab ev >>
  database_tab ev.

(** ** Sessions *)

(** One execution starts with an empty page. *)
Definition blank (rt : runtime) : runtime :=
  {| world := world rt; api_key := api_key rt; session := session rt;
     log := [] |}.

Definition execute (ev : option event) (rt : runtime) : runtime :=
  snd (app ev (blank rt)).

(** The browser only sends what the page on screen allows: a click on a
    button that was drawn enabled, a text that is not empty. *)
Definition deliverable (page : list effect) (ev : event) : Prop :=
  match ev with
  | Click widget => In (Button widget false) page
  | Submit prompt => prompt <> "" /\ In ChatInput page
  end.

(** The states of the process after an execution: the first load, an
    interaction with the page on screen, a rerun or refresh, and whatever
    the collaborators' world does between two executions. *)
Inductive reachable : runtime -> Prop :=
| reach_load (w : World) (key : option string) :
    reachable (execute None {| world := w; api_key := key;
                               session := initial_session; log := [] |})
| reach_event (rt : runtime) (ev : event) :
    reachable rt -> deliverable (log rt) ev ->
    reachable (execute (Some ev) rt)
| reach_rerun (rt : runtime) :
    reachable rt -> reachable (execute None rt)
| reach_world (rt : runtime) (w : World) :
    reachable rt ->
    reachable {| world := w; api_key := api_key rt; session := session rt;
                 log := log rt |}.

(** ** Reading the log *)

(** The buttons that lead to [create_swiss_database] or
    [create_stories_database]. *)
Definition creation_buttons : list string :=
  ["swiss_create"; "stories_create"; sidebar_all_label;
   "swiss_detail_create"; "stories_detail_create"; bulk_all_label].

Definition run_calls (page : list effect) : list db_args :=
  omap (fun e => match e with CallRun args => Some args | _ => None end) page.

Definition init_calls (page : list effect) : list db_args :=
  omap (fun e => match e with CallInit args => Some args | _ => None end) page.

Definition respond_calls (page : list effect)
  : list (legacy_history * string) :=
  omap (fun e => match e with
                 | CallRespond history prompt => Some (history, prompt)
                 | _ => None
                 end) page.

Definition error_texts (page : list effect) : list string :=
  omap (fun e => match e with Error text => Some text | _ => None end) page.

Definition success_texts (page : list effect) : list string :=
  omap (fun e => match e with Success text => Some text | _ => None end) page.

(** The chat bubbles of a page, each as (role, content). *)
Definition bubbles (page : list effect) : list (string * option string) :=
  omap (fun e => match e with
                 | ChatMessage who _ body => Some (who, body)
                 | ChatError who _ text => Some (who, Some text)
                 | _ => None
                 end) page.

Definition turn (m : message) : string * option string :=
  (role m, content m).

(** A Streamlit call that only draws. *)
Definition is_display (e : effect) : bool :=
  match e with
  | CallInit _ | CallRun _ | CallRespond _ _ | CallRerun => false
  | _ => true
  end.

End Page.

(** ** The helpers as values *)

Section Cases.
Context `{Ext : Collaborators}.

(** The six lookups of [extract_configuration] without the monad. *)
Definition configuration (app_config : yaml) (section : string)
  : exn + db_args :=
  match subscript2 app_config section "chunk_size" with inl e => inl e | inr size =>
  match subscript2 app_config section "chunk_overlap" with inl e => inl e | inr overlap =>
  match subscript2 app_config section "embedding_model" with inl e => inl e | inr model =>
  match subscript2 app_config section "vectordb" with inl e => inl e | inr dir =>
  match subscript2 app_config section "collection_name" with inl e => inl e | inr name =>
  match subscript2 app_config section "unstructured_docs" with inl e => inl e | inr docs =>
  inr {| doc_dir := docs; chunk_size := size; chunk_overlap := overlap;
         embedding_model := model; vectordb_dir := dir;
         collection_name := name |}
  end end end end end end.

(** The exception that stops a creation, if any: the first one raised by the
    lookups, by the constructor or by [run]. *)
Definition creation_failure (app_config : yaml) (section : string) (w : World)
  : option exn :=
  match configuration app_config section with
  | inl e => Some e
  | inr args =>
      match PrepareVectorDB_init args w with
      | (Some e, _) => Some e
      | (None, w1) => fst (PrepareVectorDB_run args w1)
      end
  end.

(** A runtime after some calls: a new world and a longer log. *)
Definition after (rt : runtime) (w : World) (page : list effect) : runtime :=
  {| world := w; api_key := api_key rt; session := session rt;
     log := log rt ++ page |}.

(** The four ways a creation can go. *)
Definition creation_result (section spinner created failed : string)
    (app_config : yaml) (rt : runtime) : outcome unit * runtime :=
  match configuration app_config section with
  | inl e =>
      (Done tt, after rt (world rt) [Spinner spinner; Error (failed +:+ str e)])
  | inr args =>
      match PrepareVectorDB_init args (world rt) with
      | (Some e, w1) =>
          (Done tt,
           after rt w1 [Spinner spinner; Placeholder; CallInit args;
                        Error (failed +:+ str e)])
      | (None, w1) =>
          match PrepareVectorDB_run args w1 with
          | (Some e, w2) =>
              (Done tt,
               after rt w2
                 [Spinner spinner; Placeholder; CallInit args;
                  Info "Processing documents and creating embeddings...";
                  CallRun args; Error (failed +:+ str e)])
          | (None, w2) =>
              (Rerun,
               after rt w2
                 [Spinner spinner; Placeholder; CallInit args;
                  Info "Processing documents and creating embeddings...";
                  CallRun args; Success created; CallRerun])
          end
      end
  end.

End Cases.

(** ** A test double for the collaborators *)

Module Double.

(** A file system, a [.env] entry and a configuration. *)
Record disk := Disk {
  files : list string;
  env_file : option string;
  config_file : exn + yaml
}.

Definition on_disk (d : disk) (path : string) : bool :=
  existsb (fun f => (f =? path)%string) (files d).

Definition project_path (p : string) : string := "/app/" +:+ p.

(** A chatbot that fails on "fail", answers with [None] on "none" and with
    an empty history on "empty", and otherwise appends one pair. *)
Definition respond (history : legacy_history) (prompt : string) (d : disk)
  : respond_result * disk :=
  if (prompt =? "fail")%string then (RespondRaises (Exception "backend down"), d)
  else if (prompt =? "none")%string then (RespondReturns "" None, d)
  else if (prompt =? "empty")%string then (RespondReturns "" (Some []), d)
  else (RespondReturns ""
          (Some (history ++ [(Some prompt, Some ("echo " +:+ prompt))])%list), d).

(** A builder that needs its documents and then creates its directory. *)
Definition build (args : db_args) (d : disk) : option exn * disk :=
  match doc_dir args, vectordb_dir args with
  | YStr docs, YStr dir =>
      if on_disk d (project_path docs)
      then (None, {| files := project_path dir :: files d;
                     env_file := env_file d; config_file := config_file d |})
      else (Some (Exception ("no documents in " +:+ docs)), d)
  | _, _ => (Some (TypeError "expected str"), d)
  end.

#[export] Instance collaborators : Collaborators := {|
  World := disk;
  path_exists := on_disk;
  here := project_path;
  dotenv_api_key := env_file;
  load_config := config_file;
  ChatBot_respond := respond;
  PrepareVectorDB_init := fun _ d => (None, d);
  PrepareVectorDB_run := build;
  not_subscriptable := fun _ => "object is not subscriptable";
  not_a_path := fun _ => "expected str, bytes or os.PathLike object";
  format_value := fun v => match v with YStr s => s | _ => "?" end
|}.

Definition rag_section (dir name docs : string) : yaml :=
  YMap (<["chunk_size" := YInt 500]>
       (<["chunk_overlap" := YInt 100]>
       (<["embedding_model" := YStr "text-embedding-3-small"]>
       (<["vectordb" := YStr dir]>
       (<["collection_name" := YStr name]>
       (<["unstructured_docs" := YStr docs]> ∅)))))).

Definition swiss_args : db_args :=
  {| doc_dir := YStr "data/swiss"; chunk_size := YInt 500;
     chunk_overlap := YInt 100;
     embedding_model := YStr "text-embedding-3-small";
     vectordb_dir := YStr "data/swiss_db";
     collection_name := YStr "swiss" |}.

Definition tools_config : yaml :=
  YMap (<[swiss_section := rag_section "data/swiss_db" "swiss" "data/swiss"]>
       (<[stories_section := rag_section "data/stories_db" "stories" "data/stories"]>
        ∅)).

(** Documents for the Swiss collection only, and an API key in [.env]. *)
Definition office : disk :=
  {| files := ["/app/data/swiss"]; env_file := Some "sk-test";
     config_file := inr tools_config |}.

(** The same machine without an API key. *)
Definition keyless : disk :=
  {| files := ["/app/data/swiss"]; env_file := None;
     config_file := inr tools_config |}.

Definition boot (d : disk) : runtime :=
  {| world := d; api_key := None; session := initial_session; log := [] |}.

(** The first page, and the states after one and two prompts. *)
Definition first_page : runtime := execute None (boot office).
Definition after_hi : runtime := execute (Some (Submit "hi")) first_page.
Definition keyless_page : runtime := execute None (boot keyless).

(** A machine whose configuration file cannot be read, and one whose
    configuration has no collection in it. *)
Definition unconfigured : disk :=
  {| files := []; env_file := Some "sk-test";
     config_file := inl (Exception "No such file: configs/tools_config.yml") |}.

Definition hollow : disk :=
  {| files := []; env_file := Some "sk-test"; config_file := inr (YMap ∅) |}.

Definition after_yo : runtime := execute (Some (Submit "yo")) after_hi.

(** A configuration whose Stories section has a chunk size and nothing
    else. *)
Definition partial_fields : gmap string yaml := <["chunk_size" := YInt 500]> ∅.
Definition partial_config : yaml :=
  YMap (<["stories_rag" := YMap partial_fields]> ∅).

End Double.

(** ** A second test double: a chatbot that summarises *)

Module Summary.

(** Whatever it is given, the chatbot answers with a greeting, a summary of
    the earlier turns and the latest exchange. *)
Definition summarise (history : legacy_history) (prompt : string)
    (d : Double.disk) : respond_result * Double.disk :=
  (RespondReturns ""
     (Some [(None, Some "Hello!"); (Some "summary", None);
            (Some prompt, Some "ok")]), d).

#[export] Instance summariser : Collaborators := {|
  World := Double.disk;
  path_exists := Double.on_disk;
  here := Double.project_path;
  dotenv_api_key := Double.env_file;
  load_config := Double.config_file;
  ChatBot_respond := summarise;
  PrepareVectorDB_init := fun _ d => (None, d);
  PrepareVectorDB_run := Double.build;
  not_subscriptable := fun _ => "object is not subscriptable";
  not_a_path := fun _ => "expected str, bytes or os.PathLike object";
  format_value := fun v => match v with YStr s => s | _ => "?" end
|}.



End Summary.

(** ** Vocabulary of the statements *)

(** The two document collections and what the script has for each. *)
Inductive collection := Swiss | Stories.

Section Vocabulary.
Context `{Ext : Collaborators}.

Definition section_of (c : collection) : string :=
  match c with Swiss => swiss_section | Stories => stories_section end.

Definition create_of (c : collection) : yaml -> script unit :=
  match c with
  | Swiss => create_swiss_database
  | Stories => create_stories_database
  end.

Definition failed_of (c : collection) : string :=
  match c with Swiss => swiss_failed | Stories => stories_failed end.

Definition detail_button (c : collection) : string :=
  match c with
  | Swiss => "swiss_detail_create"
  | Stories => "stories_detail_create"
  end.

Definition created_of (c : collection) : string :=
  match c with Swiss => swiss_created | Stories => stories_created end.

(** The six fields of a collection's section. *)
Definition six_fields : list string :=
  ["chunk_size"; "chunk_overlap"; "embedding_model"; "vectordb";
   "collection_name"; "unstructured_docs"].

(** What a piece of script adds to the page. *)
Definition added {A} (m : script A) (rt : runtime) : list effect :=
  drop (length (log rt)) (log (snd (m rt))).

(** The turn that line 258 appends for a prompt. *)
Definition user_turn (w : World) (prompt : string) : message :=
  {| role := "user"; content := Some prompt;
     avatar := if path_exists w "images/AI_RT.png"
               then "images/AI_RT.png" else user_icon |}.

(** Lines 273-276 as a function of the message list and the stored legacy
    history: the legacy history that is stored when the chatbot is called. *)
Definition synced (msgs : list message) (history : legacy_history)
  : legacy_history :=
  if (length history <? length (gradio_format msgs))%nat
  then List.removelast (gradio_format msgs)
  else history.

(** The turn appended for what the chatbot did (lines 282-316); [w] is the
    world after the call. *)
Definition assistant_turn (w : World) (r : respond_result) : message :=
  match r with
  | RespondRaises e =>
      {| role := "assistant";
         content := Some ("An error occurred: " +:+ str e);
         avatar := warning_icon |}
  | RespondReturns _ (Some ((_ :: _) as updated)) =>
      {| role := "assistant"; content := latest_reply updated;
         avatar := if path_exists w "images/openai.png"
                   then "images/openai.png" else bot_icon |}
  | RespondReturns _ _ =>
      {| role := "assistant"; content := Some fallback_text;
         avatar := bot_icon |}
  end.

(** The legacy history stored after the call: line 294 in the one branch
    that assigns it. *)
Definition history_after (history : legacy_history) (r : respond_result)
  : legacy_history :=
  match r with
  | RespondReturns _ (Some ((_ :: _) as updated)) => updated
  | _ => history
  end.

(** How the assistant's turn is drawn: [st.error] for an exception,
    [st.write] otherwise. *)
Definition reply_bubble (r : respond_result) (a : message) : effect :=
  match r with
  | RespondRaises e =>
      ChatError "assistant" warning_icon ("An error occurred: " +:+ str e)
  | _ => bubble a
  end.

(** The whole handler as a value. *)
Definition chat_result (prompt : string) (rt : runtime)
  : outcome unit * runtime :=
  let u := user_turn (world rt) prompt in
  let msgs := messages (session rt) ++ [u] in
  let history := synced msgs (gradio_chat_history (session rt)) in
  let '(r, w) := ChatBot_respond history prompt (world rt) in
  let a := assistant_turn w r in
  (Done tt,
   {| world := w; api_key := api_key rt;
      session := {| messages := msgs ++ [a];
                    gradio_chat_history := history_after history r |};
      log := log rt ++ [bubble u; Spinner "Thinking...";
                        CallRespond history prompt; reply_bubble r a] |}).

(** How one answered prompt changes the session, and the one call of the
    chatbot it makes. *)
Definition chat_step (prompt : string) (s s' : session_state)
    (calls : list (legacy_history * string)) : Prop :=
  exists (w0 : World) (r : respond_result) (w : World),
    let u := user_turn w0 prompt in
    let stored := synced (messages s ++ [u]) (gradio_chat_history s) in
    ChatBot_respond stored prompt w0 = (r, w) /\
    s' = {| messages := (messages s ++ [u]) ++ [assistant_turn w r];
            gradio_chat_history := history_after stored r |} /\
    calls = [(stored, prompt)].

(** The chatbot hands back at most one pair more than it was given. *)
Definition adds_at_most_one : Prop :=
  forall history prompt w first updated w',
    ChatBot_respond history prompt w =
      (RespondReturns first (Some updated), w') ->
    length updated <= S (length history).

Definition known_role (m : message) : Prop :=
  role m = "user" \/ role m = "assistant".


(** The legacy history is never longer than the list of user turns. *)
Definition in_step (s : session_state) : Prop :=
  length (gradio_chat_history s) <= length (gradio_format (messages s)).

(** A relation between the runtime before and after holds for every run of
    a piece of script, however the piece ends. *)
Definition stable (R : runtime -> runtime -> Prop) {A} (m : script A) : Prop :=
  forall rt, R rt (snd (m rt)).

(** The piece leaves the environment alone and adds to the page only
    effects that [Q] accepts for the current API key. *)
Definition draws (Q : option string -> effect -> Prop) (rt rt' : runtime)
  : Prop :=
  api_key rt' = api_key rt /\
  exists page, log rt' = log rt ++ page /\ Forall (Q (api_key rt)) page.

Definition keeps_session (rt rt' : runtime) : Prop :=
  session rt' = session rt.

(** What an execution triggered by [ev] may put on the page: a creation
    button is disabled exactly when the key is missing, the builder is
    called only after a click on a creation button, the chatbot only for a
    submitted text that is not empty. *)
Definition audit (ev : option event) (key : option string) (e : effect)
  : Prop :=
  match e with
  | Button widget disabled =>
      In widget creation_buttons -> disabled = negb (truthy key)
  | CallInit _ | CallRun _ =>
      exists widget, ev = Some (Click widget) /\ In widget creation_buttons
  | CallRespond _ prompt => ev = Some (Submit prompt) /\ prompt <> ""
  | _ => True
  end.

(** The same for the sidebar and the manager tab, which never call the
    chatbot. *)
Definition panel_audit (ev : option event) (key : option string) (e : effect)
  : Prop :=
  match e with
  | CallRespond _ _ => False
  | _ => audit ev key e
  end.

(** What is on the page of a state that an execution has left behind. *)
Definition gated (key : option string) (e : effect) : Prop :=
  match e with
  | Button widget disabled =>
      In widget creation_buttons -> disabled = negb (truthy key)
  | CallInit _ | CallRun _ => truthy key = true
  | _ => True
  end.

(** ** Vocabulary of the further properties *)

Definition same_world (rt rt' : runtime) : Prop :=
  world rt' = world rt.

(** An event that neither clears the chat, nor asks for a creation, nor
    brings a text: a first load or rerun, a click on any other button, an
    empty submission. *)
Definition idle (ev : option event) : Prop :=
  match ev with
  | None => True
  | Some (Click widget) =>
      widget <> clear_chat_label /\ ~ In widget creation_buttons
  | Some (Submit prompt) => prompt = ""
  end.

(** User and assistant turns take turns, the user first. *)
Fixpoint alternates (msgs : list message) : bool :=
  match msgs with
  | [] => true
  | u :: a :: rest =>
      (role u =? "user")%string && (role a =? "assistant")%string &&
      alternates rest
  | [_] => false
  end.

(** What the sidebar draws before it reads the configuration entries. *)
Definition sidebar_head (rt : runtime) : list effect :=
  Button clear_chat_label false ::
  match messages (session rt) with
  | [] => []
  | _ :: _ =>
      [Metric "Messages" (length (messages (session rt)));
       Metric "Conversations" (length (messages (session rt)) / 2)]
  end ++
  (if truthy (api_key rt) then []
   else [Error "⚠️ OPENAI_API_KEY not found in environment variables";
         Info "Please set your API key in the .env file to create databases"]).

(** Like [audit], with the buttons that lead nowhere near a creation: they
    are always enabled. *)
Definition button_audit (key : option string) (e : effect) : Prop :=
  match e with
  | Button widget disabled =>
      (In widget creation_buttons -> disabled = negb (truthy key)) /\
      (~ In widget creation_buttons -> disabled = false)
  | _ => True
  end.

End Vocabulary.

(** * Properties *)

Section CreationFacts.
Context `{Ext : Collaborators}.

Lemma extract_configuration_value (app_config : yaml) (section : string)
    (rt : runtime) :
  extract_configuration app_config section rt =
  match configuration app_config section with
  | inl e => (Raised e, rt)
  | inr args => (Done args, rt)
  end.
Proof.
  unfold extract_configuration, configuration, bind, lift, raise, ret.
  repeat (match goal with
          | |- context [subscript2 ?c ?s ?f] => destruct (subscript2 c s f)
          end; try reflexivity).
Qed.

(** [create_database] goes one of the four ways of [creation_result]. *)
Lemma create_database_cases (section spinner created failed : string)
    (app_config : yaml) (rt : runtime) :
  create_database section spinner created failed app_config rt =
  creation_result section spinner created failed app_config rt.
Proof.
  unfold create_database, creation_result, try_except, bind, emit.
  rewrite extract_configuration_value.
  destruct (configuration app_config section) as [e | args];
    cbn [world api_key session log].
  - unfold after. now rewrite <- app_assoc.
  - unfold call_raising, call_world, bind, raise, ret, st_rerun.
    cbn [world api_key session log].
    destruct (PrepareVectorDB_init args (world rt)) as [[e |] w1];
      cbn [world api_key session log].
    + unfold after. now rewrite <- !app_assoc.
    + destruct (PrepareVectorDB_run args w1) as [[e |] w2];
        cbn [world api_key session log];
        unfold after; now rewrite <- !app_assoc.
Qed.

End CreationFacts.

Section Creation.
Context `{Ext : Collaborators}.

Lemma added_after {A} (m : script A) (rt : runtime) (o : outcome A)
    (w : World) (page : list effect) :
  m rt = (o, after rt w page) -> added m rt = page.
Proof.
  intros E. unfold added. rewrite E. cbn. now rewrite drop_app_length.
Qed.

Lemma create_of_cases (c : collection) (app_config : yaml) (rt : runtime) :
  exists spinner,
    create_of c app_config rt =
    creation_result (section_of c) spinner (created_of c) (failed_of c)
      app_config rt.
Proof.
  destruct c; eexists; apply create_database_cases.
Qed.

(** C2.  A database-creation helper never lets an exception out.  When the
    lookups, the constructor or [run] raise [e], the helper returns normally
    and draws exactly one error text, the helper's prefix followed by
    [str(e)], and no success text; when nothing raises it draws the success
    text and no error text (and then ends with the rerun signal of
    [st.rerun()]). *)
Theorem creation_failures_are_rendered_inline (c : collection)
    (app_config : yaml) (rt : runtime) :
  let page := added (create_of c app_config) rt in
  (forall e, fst (create_of c app_config rt) <> Raised e) /\
  match creation_failure app_config (section_of c) (world rt) with
  | Some e =>
      fst (create_of c app_config rt) = Done tt /\
      error_texts page = [failed_of c +:+ str e] /\
      success_texts page = []
  | None =>
      error_texts page = [] /\
      success_texts page = [created_of c]
  end.
Proof.
  destruct (create_of_cases c app_config rt) as [spinner E].
  unfold creation_failure, creation_result in *.
  destruct (configuration app_config (section_of c)) as [e | args].
  { rewrite (added_after _ _ _ _ _ E), E. cbn. repeat split; congruence. }
  destruct (PrepareVectorDB_init args (world rt)) as [[e |] w1].
  { rewrite (added_after _ _ _ _ _ E), E. cbn. repeat split; congruence. }
  destruct (PrepareVectorDB_run args w1) as [[e |] w2];
    rewrite (added_after _ _ _ _ _ E), E; cbn; repeat split; congruence.
Qed.


(** C6.  When the six fields of the collection's section can be read, the
    helper constructs [PrepareVectorDB] exactly once, with the six values
    as they are in the configuration, each under its keyword; [run] is
    called after that, on these arguments, if and only if the constructor
    did not raise.  Nothing else of the configuration matters: two
    configurations with the same six lookups give the same execution. *)
Theorem creation_passes_the_six_fields (c : collection)
    (app_config : yaml) (rt : runtime)
    (size overlap model dir name docs : yaml)
    (Hsize : subscript2 app_config (section_of c) "chunk_size" = inr size)
    (Hoverlap : subscript2 app_config (section_of c) "chunk_overlap" = inr overlap)
    (Hmodel : subscript2 app_config (section_of c) "embedding_model" = inr model)
    (Hdir : subscript2 app_config (section_of c) "vectordb" = inr dir)
    (Hname : subscript2 app_config (section_of c) "collection_name" = inr name)
    (Hdocs : subscript2 app_config (section_of c) "unstructured_docs" = inr docs) :
  let args := {| doc_dir := docs; chunk_size := size;
                 chunk_overlap := overlap; embedding_model := model;
                 vectordb_dir := dir; collection_name := name |} in
  let page := added (create_of c app_config) rt in
  (exists spinner rest,
     page = Spinner spinner :: Placeholder :: CallInit args :: rest /\
     init_calls rest = [] /\
     run_calls rest =
       match fst (PrepareVectorDB_init args (world rt)) with
       | None => [args]
       | Some _ => []
       end) /\
  forall other : yaml,
    (forall field, In field six_fields ->
       subscript2 other (section_of c) field =
       subscript2 app_config (section_of c) field) ->
    create_of c other rt = create_of c app_config rt.
Proof.
  intros args page. split.
  - destruct (create_of_cases c app_config rt) as [spinner E].
    unfold creation_result, configuration in E.
    rewrite Hsize, Hoverlap, Hmodel, Hdir, Hname, Hdocs in E.
    fold args in E. subst page.
    destruct (PrepareVectorDB_init args (world rt)) as [[e |] w1].
    { rewrite (added_after _ _ _ _ _ E). cbn. eauto. }
    destruct (PrepareVectorDB_run args w1) as [[e |] w2];
      rewrite (added_after _ _ _ _ _ E); cbn; eauto.
  - intros other Hsame.
    assert (configuration other (section_of c) =
            configuration app_config (section_of c)) as Hcfg.
    { unfold configuration.
      rewrite !Hsame by (unfold six_fields; cbn; tauto). reflexivity. }
    destruct c; cbn [create_of];
      unfold create_swiss_database, create_stories_database;
      rewrite !create_database_cases; unfold creation_result;
      cbn [section_of] in Hcfg; now rewrite Hcfg.
Qed.

(** The two Create All buttons: when the Swiss helper succeeds, its rerun
    request ends the execution and the Stories helper is not run. *)
Lemma create_all_stops_after_success (app_config : yaml) (rt : runtime) :
  creation_failure app_config swiss_section (world rt) = None ->
  fst (create_all app_config rt) = Rerun /\
  length (run_calls (added (create_all app_config) rt)) = 1.
Proof.
  intros Hok. unfold added, create_all, bind, emit.
  unfold create_swiss_database. rewrite create_database_cases.
  unfold creation_failure in Hok. unfold creation_result.
  cbn [world api_key session log].
  destruct (configuration app_config swiss_section) as [e | args];
    [discriminate |].
  destruct (PrepareVectorDB_init args (world rt)) as [[e |] w1];
    [discriminate |].
  destruct (PrepareVectorDB_run args w1) as [[e |] w2]; [discriminate |].
  cbn [fst snd after log]. split; [reflexivity |].
  rewrite <- !app_assoc, drop_app_length. reflexivity.
Qed.

End Creation.

(** ** Reasoning about pieces of script *)

#[global] Instance draws_preorder `{Ext : Collaborators}
    (Q : option string -> effect -> Prop) : PreOrder (draws Q).
Proof.
  split.
  - intros rt. split; [reflexivity |]. exists []. now rewrite app_nil_r.
  - intros a b c [Kab (p & Lab & Fab)] [Kbc (q & Lbc & Fbc)].
    split; [congruence |]. exists (p ++ q). split.
    + now rewrite Lbc, Lab, app_assoc.
    + apply Forall_app. split; [assumption |]. now rewrite <- Kab.
Qed.

#[global] Instance keeps_session_preorder `{Ext : Collaborators}
  : PreOrder keeps_session.
Proof. split; unfold keeps_session; congruence. Qed.

Section Stability.
Context `{Ext : Collaborators}.

Variable R : runtime -> runtime -> Prop.
Context {R_preorder : PreOrder R}.

Lemma stable_ret {A} (a : A) : stable R (ret a).
Proof. intros rt. reflexivity. Qed.

Lemma stable_raise {A} (e : exn) : stable R (raise (A := A) e).
Proof. intros rt. reflexivity. Qed.

Lemma stable_lift {A} (r : exn + A) : stable R (lift r).
Proof. destruct r; [apply stable_raise | apply stable_ret]. Qed.

Lemma stable_bind {A B} (m : script A) (k : A -> script B) :
  stable R m -> (forall a, stable R (k a)) -> stable R (bind m k).
Proof.
  intros Hm Hk rt. unfold bind. specialize (Hm rt).
  destruct (m rt) as [[a | e |] rt1]; cbn in *; try assumption.
  transitivity rt1; [assumption | apply Hk].
Qed.

Lemma stable_try {A} (body : script A) (handler : exn -> script A) :
  stable R body -> (forall e, stable R (handler e)) ->
  stable R (try_except body handler).
Proof.
  intros Hb Hh rt. unfold try_except. specialize (Hb rt).
  destruct (body rt) as [[a | e |] rt1]; cbn in *; try assumption.
  transitivity rt1; [assumption | apply Hh].
Qed.

Lemma stable_when (b : bool) (body : script unit) :
  (b = true -> stable R body) -> stable R (when b body).
Proof. destruct b; cbn; [auto | intros _; apply stable_ret]. Qed.

Lemma stable_ask_world {A} (f : World -> A) : stable R (ask_world f).
Proof. intros rt. reflexivity. Qed.

Lemma stable_get_session : stable R get_session.
Proof. intros rt. reflexivity. Qed.

Lemma stable_api_key_available : stable R api_key_available.
Proof. intros rt. reflexivity. Qed.

Lemma stable_button_when (widget : string) (disabled : bool)
    (ev : option event) (body : script unit) :
  stable R (emit (Button widget disabled)) ->
  (ev = Some (Click widget) -> stable R body) ->
  stable R (bind (st_button widget disabled ev) (fun c => when c body)).
Proof.
  intros Hb Hbody rt. specialize (Hb rt).
  unfold st_button, bind, ret, emit, when in *. cbn in *.
  destruct ev as [[w | p] |]; try exact Hb.
  destruct (String.eqb_spec w widget) as [-> | ne]; [| exact Hb].
  etransitivity; [exact Hb | now apply Hbody].
Qed.

End Stability.

Section Primitives.
Context `{Ext : Collaborators}.
Variable Q : option string -> effect -> Prop.

Lemma draws_emit (e : effect) :
  (forall key, Q key e) -> stable (draws Q) (emit e).
Proof.
  intros HQ rt. split; [reflexivity |]. exists [e]. split; [reflexivity |].
  constructor; [apply HQ | constructor].
Qed.

Lemma draws_rerun {A} :
  (forall key, Q key CallRerun) -> stable (draws Q) (st_rerun (A := A)).
Proof.
  intros HQ rt. split; [reflexivity |]. exists [CallRerun].
  split; [reflexivity |]. constructor; [apply HQ | constructor].
Qed.

Lemma draws_call_world {A} (f : World -> A * World) :
  stable (draws Q) (call_world f).
Proof.
  intros rt. unfold call_world. destruct (f (world rt)) as [a w].
  split; [reflexivity |]. exists []. cbn. now rewrite app_nil_r.
Qed.

Lemma draws_put_session (s : session_state) : stable (draws Q) (put_session s).
Proof.
  intros rt. split; [reflexivity |]. exists []. cbn. now rewrite app_nil_r.
Qed.

Lemma draws_show_history :
  (forall key who icon body, Q key (ChatMessage who icon body)) ->
  stable (draws Q) show_history.
Proof.
  intros HQ rt. split; [reflexivity |].
  exists (map bubble (messages (session rt))). split; [reflexivity |].
  apply List.Forall_forall. intros e He. apply in_map_iff in He as (m & <- & _).
  apply HQ.
Qed.

(** Once the key has been read, what is drawn may rely on its value. *)
Lemma draws_available {A} (k : bool -> script A) :
  (forall b, stable (draws (fun key e => truthy key = b -> Q key e)) (k b)) ->
  stable (draws Q) (bind api_key_available k).
Proof.
  intros Hk rt. unfold bind, api_key_available.
  destruct (Hk (truthy (api_key rt)) rt) as [K (page & L & F)].
  split; [exact K |]. exists page. split; [exact L |].
  eapply Forall_impl; [exact F |]. cbn. auto.
Qed.

Lemma keeps_emit (e : effect) : stable keeps_session (emit e).
Proof. intros rt. reflexivity. Qed.

Lemma keeps_rerun {A} : stable keeps_session (st_rerun (A := A)).
Proof. intros rt. reflexivity. Qed.

Lemma keeps_call_world {A} (f : World -> A * World) :
  stable keeps_session (call_world f).
Proof.
  intros rt. unfold call_world. now destruct (f (world rt)).
Qed.

Lemma keeps_show_history : stable keeps_session show_history.
Proof. intros rt. reflexivity. Qed.

End Primitives.

Create HintDb script.

#[local] Hint Unfold create_swiss_database create_stories_database
  create_database extract_configuration call_raising create_all
  load_app_config sidebar_status exists_here detail_panel session_stats
  st_chat_input : script.

(** Take a piece of script apart along its structure; what remains are the
    single effects it draws. *)
Ltac script_step :=
  lazymatch goal with
  | |- stable _ (bind api_key_available _) =>
      first [ apply draws_available; intros ?
            | apply stable_bind; try exact _;
              [apply stable_api_key_available; exact _ | intros ?] ]
  | |- stable _ (bind (st_button _ _ _) _) =>
      apply stable_button_when; try exact _; [| intros ?]
  | |- stable _ (bind _ _) => apply stable_bind; try exact _; [| intros ?]
  | |- stable _ (try_except _ _) =>
      apply stable_try; try exact _; [| intros ?]
  | |- stable _ (when _ _) => apply stable_when; try exact _; intros ?
  | |- stable _ (ret _) => apply stable_ret; exact _
  | |- stable _ (raise _) => apply stable_raise; exact _
  | |- stable _ (lift _) => apply stable_lift; exact _
  | |- stable _ (ask_world _) => apply stable_ask_world; exact _
  | |- stable _ get_session => apply stable_get_session; exact _
  | |- stable _ (put_session _) => apply draws_put_session
  | |- stable _ (call_world _) =>
      first [apply draws_call_world | apply keeps_call_world]
  | |- stable _ st_rerun => first [apply draws_rerun | apply keeps_rerun]
  | |- stable _ show_history =>
      first [apply draws_show_history | apply keeps_show_history]
  | |- stable _ (emit _) => first [apply draws_emit | apply keeps_emit]
  | |- stable _ (match ?x with _ => _ end) => destruct x
  | |- stable _ _ => progress autounfold with script
  end.

Ltac script_steps := repeat script_step.

(** The single effects: a text, a button with its gate, a call with the
    click that leads to it. *)
Ltac listed :=
  unfold creation_buttons; cbn [In];
  repeat first [left; reflexivity | right].

Ltac unlisted H :=
  exfalso; unfold creation_buttons in H; cbn [In] in H;
  vm_compute in H; intuition discriminate.

Ltac audit_ok :=
  intros; cbn;
  first [ exact I
        | eexists; split; [eassumption | listed]
        | split; [eassumption || reflexivity | assumption]
        | let H := fresh in intros H; first [congruence | unlisted H] ].

Section Pieces.
Context `{Ext : Collaborators}.

Lemma sidebar_draws (ev : option event) :
  stable (draws (panel_audit ev)) (sidebar ev).
Proof. unfold sidebar, clear_chat. script_steps; audit_ok. Qed.

Lemma database_tab_draws (ev : option event) :
  stable (draws (panel_audit ev)) (database_tab ev).
Proof. unfold database_tab. script_steps; audit_ok. Qed.

End Pieces.

Section ChatFacts.
Context `{Ext : Collaborators}.

Lemma sync_history_value (rt : runtime) :
  sync_history rt =
  (Done tt,
   {| world := world rt; api_key := api_key rt;
      session := {| messages := messages (session rt);
                    gradio_chat_history :=
                      synced (messages (session rt))
                             (gradio_chat_history (session rt)) |};
      log := log rt |}).
Proof.
  unfold sync_history, synced, bind, get_session, when, put_session, ret.
  destruct rt as [w key [msgs history] page].
  cbn [world api_key session log messages gradio_chat_history].
  now destruct (length history <? length (gradio_format msgs))%nat.
Qed.

Lemma chat_handler_cases (prompt : string) (rt : runtime) :
  chat_handler prompt rt = chat_result prompt rt.
Proof.
  unfold chat_handler, chat_result, try_except, bind at 1 2 3 4 5.
  unfold ask_world, append_message, emit, bind, get_session, put_session.
  cbn [world api_key session log messages gradio_chat_history].
  rewrite sync_history_value.
  cbn [world api_key session log messages gradio_chat_history].
  unfold ask_chatbot, bind, get_session, emit, call_world.
  cbn [world api_key session log messages gradio_chat_history].
  destruct (ChatBot_respond _ prompt (world rt)) as [r w].
  destruct r as [e | first [[| p ps] |]];
    unfold raise, ask_world, append_message, store_history, emit, bind,
      get_session, put_session;
    cbn; rewrite <- !app_assoc; reflexivity.
Qed.

Lemma chat_tab_submit (prompt : string) (rt : runtime) :
  prompt <> "" ->
  chat_tab (Some (Submit prompt)) rt =
  chat_result prompt
    (after rt (world rt) (map bubble (messages (session rt)) ++ [ChatInput])).
Proof.
  intros Hp. unfold chat_tab, st_chat_input, show_history, bind, emit, ret.
  cbn [world api_key session log].
  destruct (String.eqb_spec prompt "") as [-> | _]; [contradiction |].
  cbn [negb when]. rewrite chat_handler_cases.
  unfold after. now rewrite <- app_assoc.
Qed.

Lemma bubbles_of_history (msgs : list message) :
  bubbles (map bubble msgs) = map turn msgs.
Proof. induction msgs as [| m msgs IH]; cbn; [reflexivity | now f_equal]. Qed.

Lemma bubbles_app (p q : list effect) :
  bubbles (p ++ q) = bubbles p ++ bubbles q.
Proof. apply omap_app. Qed.

Lemma assistant_turn_role (w : World) (r : respond_result) :
  role (assistant_turn w r) = "assistant".
Proof. destruct r as [e | first [[| p ps] |]]; reflexivity. Qed.

Lemma reply_bubble_turn (w : World) (r : respond_result) :
  bubbles [reply_bubble r (assistant_turn w r)] = [turn (assistant_turn w r)].
Proof. destruct r as [e | first [[| p ps] |]]; reflexivity. Qed.

(** C1.  A text submitted in the chat input (the input never submits an
    empty one) leaves the message list longer by exactly two turns: the
    user's, with the text as content, directly followed by one of the
    assistant; the handler ends normally whatever the chatbot did, and the
    chat bubbles on the page are the turns of the new message list, in
    order. *)
Theorem submitted_prompt_is_answered (prompt : string) (rt : runtime)
    (Hprompt : prompt <> "") :
  let run := chat_tab (Some (Submit prompt)) rt in
  fst run = Done tt /\
  exists u a,
    role u = "user" /\ content u = Some prompt /\ role a = "assistant" /\
    messages (session (snd run)) = messages (session rt) ++ [u; a] /\
    bubbles (added (chat_tab (Some (Submit prompt))) rt) =
      map turn (messages (session rt) ++ [u; a]).
Proof.
  cbn zeta. unfold added. rewrite (chat_tab_submit _ _ Hprompt).
  unfold chat_result. cbn [world api_key session log after].
  destruct (ChatBot_respond _ prompt (world rt)) as [r w].
  cbn [fst snd session messages log]. split; [reflexivity |].
  exists (user_turn (world rt) prompt), (assistant_turn w r).
  repeat split; try reflexivity.
  - apply assistant_turn_role.
  - now rewrite <- app_assoc.
  - rewrite <- !app_assoc, drop_app_length, !bubbles_app, bubbles_of_history.
    rewrite map_app. f_equal.
    destruct r as [e | first [[| p ps] |]]; reflexivity.
Qed.

Lemma added_chat_handler (prompt : string) (rt : runtime) :
  exists r w,
    let u := user_turn (world rt) prompt in
    let stored := synced (messages (session rt) ++ [u])
                         (gradio_chat_history (session rt)) in
    ChatBot_respond stored prompt (world rt) = (r, w) /\
    added (chat_handler prompt) rt =
      [bubble u; Spinner "Thinking..."; CallRespond stored prompt;
       reply_bubble r (assistant_turn w r)] /\
    session (snd (chat_handler prompt rt)) =
      {| messages := (messages (session rt) ++ [u]) ++ [assistant_turn w r];
         gradio_chat_history := history_after stored r |}.
Proof.
  unfold added. rewrite chat_handler_cases. unfold chat_result.
  destruct (ChatBot_respond _ prompt (world rt)) as [r w] eqn:E.
  exists r, w. cbn [snd log session]. rewrite drop_app_length. auto.
Qed.

Lemma stored_at_call (u : message) (rt : runtime) :
  gradio_chat_history (session (snd ((append_message u >> sync_history) rt))) =
  synced (messages (session rt) ++ [u]) (gradio_chat_history (session rt)).
Proof.
  unfold append_message, bind, get_session, put_session.
  cbn [world api_key session log]. now rewrite sync_history_value.
Qed.

(** C3.  The handler calls [ChatBot.respond] exactly once, with the legacy
    history that the session state holds at that moment (the prompt has been
    appended and lines 273-276 have run) and with the prompt.  When the call
    returns a pair whose second component is a history that is not empty,
    the reply of its last pair is the content of the assistant turn that is
    appended, and that history becomes the stored one. *)
Theorem chatbot_is_called_once (prompt : string) (rt : runtime) :
  let u := user_turn (world rt) prompt in
  let at_call := snd ((append_message u >> sync_history) rt) in
  let stored := gradio_chat_history (session at_call) in
  let rt' := snd (chat_handler prompt rt) in
  respond_calls (added (chat_handler prompt) rt) = [(stored, prompt)] /\
  forall first updated w,
    ChatBot_respond stored prompt (world rt) =
      (RespondReturns first (Some updated), w) ->
    updated <> [] ->
    gradio_chat_history (session rt') = updated /\
    exists icon,
      messages (session rt') =
        messages (session rt) ++
        [u; {| role := "assistant";
               content := snd (List.last updated (None, None));
               avatar := icon |}].
Proof.
  cbn zeta.
  rewrite stored_at_call.
  destruct (added_chat_handler prompt rt) as (r & w & E & Hpage & Hsession).
  cbn zeta in *. rewrite Hpage, Hsession. split.
  - destruct r as [e | first [[| p ps] |]]; reflexivity.
  - intros first updated w' E' Hne. rewrite E in E'.
    injection E' as -> ->. destruct updated as [| p ps]; [contradiction |].
    cbn [history_after assistant_turn gradio_chat_history messages].
    split; [reflexivity |]. eexists. rewrite <- app_assoc. reflexivity.
Qed.


End ChatFacts.

Section PageFacts.
Context `{Ext : Collaborators}.

(** C10.  A click on Clear Chat empties the message list and the legacy
    history in the same execution, which then ends with the rerun request:
    both are empty together in the state it leaves. *)
Theorem clear_chat_empties_both (rt : runtime) :
  let run := app (Some (Click clear_chat_label)) rt in
  fst run = Rerun /\
  messages (session (snd run)) = [] /\
  gradio_chat_history (session (snd run)) = [] /\
  session (execute (Some (Click clear_chat_label)) rt) = initial_session.
Proof.
  unfold execute, app, sidebar, clear_chat, st_button, load_dotenv.
  unfold bind, emit, ret.
  cbn [world api_key session log blank].
  rewrite String.eqb_refl. cbn [when].
  unfold put_session, st_rerun. cbn. auto.
Qed.

Lemma added_bind_done {A B} (m : script A) (k : A -> script B)
    (rt : runtime) (a : A) :
  m rt = (Done a, rt) -> added (bind m k) rt = added (k a) rt.
Proof. intros E. unfold added, bind. now rewrite E. Qed.

Lemma added_emit_first (Q : option string -> effect -> Prop) {B}
    (e : effect) (k : script B) (rt : runtime) :
  stable (draws Q) k -> hd_error (added (emit e >> k) rt) = Some e.
Proof.
  intros Hk. unfold added, bind, emit.
  destruct (Hk {| world := world rt; api_key := api_key rt;
                  session := session rt; log := log rt ++ [e] |})
    as [_ (page & L & _)].
  rewrite L. cbn [log]. rewrite <- app_assoc, drop_app_length. reflexivity.
Qed.

(** C4.  For each collection whose [vectordb] entry is a string, the
    sidebar draws "Ready" when [os.path.exists] finds the path that [here]
    makes of the entry, and "Not created" when it does not, and draws
    nothing else; the status line of the manager tab, the first thing its
    panel draws, says "Created" in the same case and "Not Created"
    otherwise.  The session state, the API key, the event and the rest of
    the configuration play no part. *)
Theorem readiness_is_path_existence (c : collection) (app_config : yaml)
    (rt : runtime) (path : string) (available : bool) (ev : option event)
    (Hpath : subscript2 app_config (section_of c) "vectordb" = inr (YStr path)) :
  let found := path_exists (world rt) (here path) in
  let side := added (sidebar_status app_config (section_of c)) rt in
  let panel :=
    added (detail_panel app_config (section_of c) (detail_button c)
             (create_of c) available ev) rt in
  side = [if found then Success "✅ Ready" else Warning "⚠️ Not created"] /\
  (In (Success "✅ Ready") side <-> found = true) /\
  (In (Warning "⚠️ Not created") side <-> found = false) /\
  hd_error panel =
    Some (Write (if found then "**Status:** ✅ Created"
                 else "**Status:** ❌ Not Created")).
Proof.
  cbn zeta.
  assert (exists config, subscript app_config (section_of c) = inr config /\
                         subscript config "vectordb" = inr (YStr path))
    as (config & Hsec & Hdb).
  { unfold subscript2 in Hpath.
    destruct (subscript app_config (section_of c)) as [e | config];
      [discriminate | eauto]. }
  assert (added (sidebar_status app_config (section_of c)) rt =
          [if path_exists (world rt) (here path)
           then Success "✅ Ready" else Warning "⚠️ Not created"]) as Hside.
  { unfold added, sidebar_status, bind, lift. rewrite Hpath.
    unfold ret, exists_here, ask_world. cbn [fst snd].
    destruct (path_exists (world rt) (here path));
      unfold emit; cbn [snd log]; now rewrite drop_app_length. }
  rewrite Hside. split; [reflexivity |].
  split; [| split].
  - destruct (path_exists (world rt) (here path)); cbn; intuition discriminate.
  - destruct (path_exists (world rt) (here path)); cbn; intuition discriminate.
  - unfold detail_panel.
    rewrite (added_bind_done _ _ _ config) by (now rewrite Hsec).
    rewrite (added_bind_done _ _ _ (YStr path)) by (now rewrite Hdb).
    rewrite (added_bind_done _ _ _ (path_exists (world rt) (here path)))
      by reflexivity.
    destruct (path_exists (world rt) (here path));
      apply (added_emit_first (fun _ _ => True));
      destruct c; cbn [create_of]; script_steps; intros; exact I.
Qed.

End PageFacts.

Section Executions.
Context `{Ext : Collaborators}.

Lemma draws_weaken (Q Q' : option string -> effect -> Prop)
    (rt rt' : runtime) :
  (forall key e, Q key e -> Q' key e) -> draws Q rt rt' -> draws Q' rt rt'.
Proof.
  intros HQ [K (page & L & F)]. split; [exact K |]. exists page.
  split; [exact L |]. eapply Forall_impl; [exact F | apply HQ].
Qed.

Lemma panel_audit_audit (ev : option event) (key : option string)
    (e : effect) :
  panel_audit ev key e -> audit ev key e.
Proof. destruct e; cbn; tauto. Qed.

Lemma respond_calls_app (p q : list effect) :
  respond_calls (p ++ q) = respond_calls p ++ respond_calls q.
Proof. apply omap_app. Qed.

Lemma respond_calls_panel (ev : option event) (key : option string)
    (page : list effect) :
  Forall (panel_audit ev key) page -> respond_calls page = [].
Proof.
  induction 1 as [| e page He _ IH]; [reflexivity |].
  destruct e; cbn in *; solve [assumption | contradiction].
Qed.

Lemma respond_calls_history (msgs : list message) :
  respond_calls (map bubble msgs) = [].
Proof. induction msgs; [reflexivity | assumption]. Qed.

Lemma sidebar_keeps (ev : option event) :
  ev <> Some (Click clear_chat_label) -> stable keeps_session (sidebar ev).
Proof.
  intros Hne. unfold sidebar, clear_chat. script_steps; contradiction.
Qed.

Lemma database_tab_keeps (ev : option event) :
  stable keeps_session (database_tab ev).
Proof. unfold database_tab. script_steps. Qed.

(** Without a text to handle, the chat tab draws the history and the
    input. *)
Lemma chat_tab_idle (ev : option event) (rt : runtime) :
  (forall prompt, ev = Some (Submit prompt) -> prompt = "") ->
  chat_tab ev rt =
  (Done tt,
   after rt (world rt) (map bubble (messages (session rt)) ++ [ChatInput])).
Proof.
  intros Hidle. unfold chat_tab, st_chat_input, show_history, bind, emit, ret.
  cbn [world api_key session log]. unfold after. rewrite <- app_assoc.
  destruct ev as [[w | prompt] |]; try reflexivity.
  now rewrite (Hidle prompt eq_refl).
Qed.

Lemma chat_tab_draws (ev : option event) :
  stable (draws (audit ev)) (chat_tab ev).
Proof.
  intros rt.
  assert (Forall (audit ev (api_key rt))
            (map bubble (messages (session rt)) ++ [ChatInput])) as Hhead.
  { apply Forall_app. split; [| repeat constructor].
    apply List.Forall_forall. intros e He.
    apply in_map_iff in He as (m & <- & _). exact I. }
  destruct ev as [[w | prompt] |];
    try (rewrite chat_tab_idle by (intros ? [=]);
         split; [reflexivity | eexists; split; [reflexivity | exact Hhead]]).
  destruct (String.eqb_spec prompt "") as [-> | Hp].
  { rewrite chat_tab_idle by (now intros ? [= <-]).
    split; [reflexivity | eexists; split; [reflexivity | exact Hhead]]. }
  rewrite (chat_tab_submit _ _ Hp). unfold chat_result, after.
  cbn [world api_key session log].
  destruct (ChatBot_respond _ prompt (world rt)) as [r w].
  split; [reflexivity |]. eexists. cbn [snd log].
  split; [rewrite <- app_assoc; reflexivity |].
  apply Forall_app. split; [exact Hhead |].
  repeat constructor; cbn; auto.
  destruct r as [e | first [[| p ps] |]]; exact I.
Qed.

Lemma bind_cases {A B} (m : script A) (k : A -> script B) (rt : runtime) :
  (exists a rt1, m rt = (Done a, rt1) /\ bind m k rt = k a rt1) \/
  snd (bind m k rt) = snd (m rt).
Proof.
  unfold bind. destruct (m rt) as [[a | e |] rt1]; eauto.
Qed.

Lemma app_clear (rt : runtime) :
  app (Some (Click clear_chat_label)) rt =
  (Rerun,
   {| world := world rt; api_key := api_key (snd (load_dotenv rt));
      session := {| messages := []; gradio_chat_history := [] |};
      log := log rt ++ [Button clear_chat_label false; CallRerun] |}).
Proof.
  unfold app, sidebar, clear_chat, st_button, load_dotenv.
  unfold bind, emit, ret.
  cbn [world api_key session log snd].
  rewrite String.eqb_refl. cbn [when].
  unfold put_session, st_rerun. cbn [world api_key session log].
  now rewrite <- app_assoc.
Qed.

Lemma app_after_dotenv (ev : option event) (rt : runtime) :
  app ev rt =
  (sidebar ev >> chat_tab ev >> database_tab ev) (snd (load_dotenv rt)).
Proof. reflexivity. Qed.

(** What one execution does to the session and how often it calls the
    chatbot. *)
Lemma execute_cases (ev : option event) (rt : runtime) :
  let rt' := execute ev rt in
  (session rt' = session rt /\ respond_calls (log rt') = []) \/
  (ev = Some (Click clear_chat_label) /\
   session rt' = initial_session /\ respond_calls (log rt') = []) \/
  (exists prompt,
     ev = Some (Submit prompt) /\ prompt <> "" /\
     chat_step prompt (session rt) (session rt') (respond_calls (log rt'))).
Proof.
  cbn zeta. unfold execute.
  destruct (decide (ev = Some (Click clear_chat_label))) as [-> | Hclear].
  { right. left. rewrite app_clear. cbn. auto. }
  rewrite app_after_dotenv.
  set (rt0 := snd (load_dotenv (blank rt))).
  assert (session rt0 = session rt) as S0 by reflexivity.
  assert (log rt0 = []) as L0 by reflexivity.
  destruct (sidebar_draws ev rt0) as [_ (p1 & L1 & F1)].
  apply respond_calls_panel in F1.
  pose proof (sidebar_keeps ev Hclear rt0) as S1. unfold keeps_session in S1.
  rewrite L0 in L1. cbn [app] in L1.
  destruct (bind_cases (sidebar ev) (fun _ => chat_tab ev >> database_tab ev) rt0)
    as [([] & rt1 & E1 & ->) | ->].
  2: { left. rewrite S1, L1. auto. }
  rewrite E1 in S1, L1. cbn [snd] in S1, L1.
  assert (forall rt2,
            session (snd (database_tab ev rt2)) = session rt2 /\
            respond_calls (log (snd (database_tab ev rt2))) =
              respond_calls (log rt2)) as Htab.
  { intros rt2. split; [apply database_tab_keeps |].
    destruct (database_tab_draws ev rt2) as [_ (p3 & L3 & F3)].
    apply respond_calls_panel in F3.
    now rewrite L3, respond_calls_app, F3, app_nil_r. }
  assert ((exists prompt, ev = Some (Submit prompt) /\ prompt <> "") \/
          (forall prompt, ev = Some (Submit prompt) -> prompt = ""))
    as [(prompt & -> & Hp) | Hidle].
  { destruct ev as [[w | prompt] |]; try (right; now intros ? [=]).
    destruct (String.eqb_spec prompt "") as [-> | Hp];
      [right; now intros ? [= <-] | left; eauto]. }
  - right. right. exists prompt. split; [reflexivity |]. split; [exact Hp |].
    unfold bind. rewrite (chat_tab_submit _ _ Hp). unfold chat_result.
    cbn [world api_key session log after].
    destruct (ChatBot_respond _ prompt (world rt1)) as [r w] eqn:E.
    destruct (Htab {| world := w; api_key := api_key rt1;
                      session :=
                        {| messages :=
                             (messages (session rt1) ++
                              [user_turn (world rt1) prompt]) ++
                             [assistant_turn w r];
                           gradio_chat_history :=
                             history_after
                               (synced (messages (session rt1) ++
                                        [user_turn (world rt1) prompt])
                                       (gradio_chat_history (session rt1))) r |};
                      log := (log rt1 ++
                              map bubble (messages (session rt1)) ++
                              [ChatInput]) ++
                             [bubble (user_turn (world rt1) prompt);
                              Spinner "Thinking...";
                              CallRespond
                                (synced (messages (session rt1) ++
                                         [user_turn (world rt1) prompt])
                                        (gradio_chat_history (session rt1)))
                                prompt;
                              reply_bubble r (assistant_turn w r)] |})
      as [S3 C3].
    cbn [session log] in S3, C3.
    exists (world rt1), r, w. cbn zeta.
    rewrite <- S0, <- S1. split; [exact E |]. split; [exact S3 |].
    rewrite C3, L1, !respond_calls_app, F1, respond_calls_history.
    cbn. now destruct r as [e | first [[| p ps] |]].
  - left. unfold bind.
    rewrite chat_tab_idle by exact Hidle.
    destruct (Htab (after rt1 (world rt1)
                      (map bubble (messages (session rt1)) ++ [ChatInput])))
      as [S3 C3].
    rewrite S3, C3. cbn [after session log]. rewrite S1, S0. split; [reflexivity |].
    now rewrite L1, !respond_calls_app, F1, respond_calls_history.
Qed.

End Executions.

Section Gate.
Context `{Ext : Collaborators}.

Lemma stable_weaken (Q Q' : option string -> effect -> Prop) {A}
    (m : script A) :
  (forall key e, Q key e -> Q' key e) ->
  stable (draws Q) m -> stable (draws Q') m.
Proof. intros HQ Hm rt. eapply draws_weaken; [exact HQ | apply Hm]. Qed.

Lemma load_dotenv_keeps_key (rt : runtime) :
  truthy (api_key rt) = true ->
  api_key (snd (load_dotenv rt)) = api_key rt.
Proof. cbn. now destruct (api_key rt). Qed.

(** The page of an execution, against the key it found after line 11. *)
Lemma execute_page (ev : option event) (rt : runtime) :
  draws (audit ev) (snd (load_dotenv (blank rt))) (execute ev rt).
Proof.
  unfold execute. rewrite app_after_dotenv.
  generalize (snd (load_dotenv (blank rt))).
  change (stable (draws (audit ev))
            (sidebar ev >> chat_tab ev >> database_tab ev)).
  apply stable_bind; try exact _.
  { apply (stable_weaken (panel_audit ev)); [apply panel_audit_audit |].
    apply sidebar_draws. }
  intros _. apply stable_bind; try exact _; [apply chat_tab_draws |].
  intros _. apply (stable_weaken (panel_audit ev)); [apply panel_audit_audit |].
  apply database_tab_draws.
Qed.

Lemma execute_gated (ev : option event) (rt : runtime) :
  (forall widget, ev = Some (Click widget) -> In widget creation_buttons ->
                  truthy (api_key (snd (load_dotenv (blank rt)))) = true) ->
  Forall (gated (api_key (execute ev rt))) (log (execute ev rt)).
Proof.
  intros Hkey. destruct (execute_page ev rt) as [K (page & L & F)].
  rewrite L, K. cbn [load_dotenv blank snd log app].
  eapply Forall_impl; [exact F |].
  intros e He. destruct e; cbn in *; try exact I; try exact He;
    destruct He as (widget & Hev & Hin); exact (Hkey widget Hev Hin).
Qed.

Lemma reachable_gated (rt : runtime) :
  reachable rt -> Forall (gated (api_key rt)) (log rt).
Proof.
  induction 1 as [w key | rt ev _ IH Hev | rt _ IH | rt w _ IH].
  - apply execute_gated. intros widget [=].
  - apply execute_gated. intros widget [= ->] Hin.
    cbn [deliverable] in Hev.
    rewrite List.Forall_forall in IH. specialize (IH _ Hev). cbn in IH.
    specialize (IH Hin).
    assert (truthy (api_key rt) = true) as Hk
      by (destruct (truthy (api_key rt)); [reflexivity | discriminate]).
    change (api_key (snd (load_dotenv (blank rt))))
      with (api_key (snd (load_dotenv rt))).
    now rewrite load_dotenv_keeps_key.
  - apply execute_gated. intros widget [=].
  - exact IH.
Qed.

Lemma in_run_calls (page : list effect) (args : db_args) :
  In args (run_calls page) <-> In (CallRun args) page.
Proof.
  induction page as [| e page IH]; [reflexivity |].
  destruct e; cbn; rewrite ?IH; intuition (try discriminate; try congruence).
Qed.

Lemma in_init_calls (page : list effect) (args : db_args) :
  In args (init_calls page) <-> In (CallInit args) page.
Proof.
  induction page as [| e page IH]; [reflexivity |].
  destruct e; cbn; rewrite ?IH; intuition (try discriminate; try congruence).
Qed.

Lemma empty_list {A} (l : list A) : (forall x, ~ In x l) -> l = [].
Proof. destruct l as [| x l]; [reflexivity |]. intros H. destruct (H x). now left. Qed.

(** C8.  In every state that the process can reach, if OPENAI_API_KEY is
    unset or empty then the page was produced without a call of
    [PrepareVectorDB] or of its [run], and each button that leads to a
    database creation is on it disabled.  The environment is changed by
    line 11 only; the browser delivers clicks on enabled buttons only.
    Whatever the state, [run] is called only in an execution that a click
    on one of the six creation buttons has triggered. *)
Theorem no_creation_without_api_key (rt : runtime) (Hreach : reachable rt) :
  (truthy (api_key rt) = false ->
   run_calls (log rt) = [] /\
   init_calls (log rt) = [] /\
   forall widget disabled,
     In widget creation_buttons -> In (Button widget disabled) (log rt) ->
     disabled = true) /\
  forall (ev : option event) (args : db_args),
    In (CallRun args) (log (execute ev rt)) ->
    exists widget, ev = Some (Click widget) /\ In widget creation_buttons.
Proof.
  split.
  - intros Hkey. pose proof (reachable_gated rt Hreach) as G.
    rewrite List.Forall_forall in G.
    repeat split.
    + apply empty_list. intros args Hin. apply in_run_calls in Hin.
      specialize (G _ Hin). cbn in G. congruence.
    + apply empty_list. intros args Hin. apply in_init_calls in Hin.
      specialize (G _ Hin). cbn in G. congruence.
    + intros widget disabled Hw Hin. specialize (G _ Hin Hw).
      now rewrite Hkey in G.
  - intros ev args Hin. destruct (execute_page ev rt) as [_ (page & L & F)].
    rewrite L in Hin. cbn [load_dotenv blank snd log app] in Hin.
    rewrite List.Forall_forall in F. exact (F _ Hin).
Qed.

End Gate.

Section Consistency.
Context `{Ext : Collaborators}.

Lemma gradio_format_app (p q : list message) :
  gradio_format (p ++ q) = gradio_format p ++ gradio_format q.
Proof. unfold gradio_format. now rewrite List.filter_app, map_app. Qed.

Lemma gradio_format_user (w : World) (prompt : string) :
  gradio_format [user_turn w prompt] = [(Some prompt, None)].
Proof. reflexivity. Qed.

Lemma gradio_format_assistant (w : World) (r : respond_result) :
  gradio_format [assistant_turn w r] = [].
Proof. destruct r as [e | first [[| p ps] |]]; reflexivity. Qed.

(** When the legacy history is in step, lines 273-276 rebuild it from the
    turns before the prompt. *)
Lemma synced_in_step (s : session_state) (w : World) (prompt : string) :
  in_step s ->
  synced (messages s ++ [user_turn w prompt]) (gradio_chat_history s) =
  gradio_format (messages s).
Proof.
  unfold in_step, synced. intros Hlen.
  rewrite gradio_format_app, gradio_format_user, length_app. cbn [length].
  destruct (Nat.ltb_spec (length (gradio_chat_history s))
              (length (gradio_format (messages s)) + 1)) as [_ | Hge];
    [apply List.removelast_last | lia].
Qed.

Lemma chat_step_in_step (prompt : string) (s s' : session_state)
    (calls : list (legacy_history * string)) :
  adds_at_most_one -> Forall known_role (messages s) -> in_step s ->
  chat_step prompt s s' calls ->
  Forall known_role (messages s') /\ in_step s' /\
  calls = [(gradio_format (messages s), prompt)] /\
  exists u a, messages s' = messages s ++ [u; a] /\
              role u = "user" /\ content u = Some prompt /\
              role a = "assistant".
Proof.
  intros Hone Hroles Hlen (w0 & r & w & E & -> & ->). cbn zeta in E.
  rewrite synced_in_step in * by assumption.
  cbn [messages gradio_chat_history]. repeat split.
  - rewrite <- app_assoc. apply Forall_app. split; [assumption |].
    constructor; [now left |].
    constructor; [right; apply assistant_turn_role | constructor].
  - unfold in_step. cbn [messages gradio_chat_history].
    rewrite !gradio_format_app, gradio_format_user, gradio_format_assistant.
    rewrite app_nil_r, length_app. cbn [length].
    destruct r as [e | first [[| p ps] |]]; cbn [history_after]; try lia.
    specialize (Hone _ _ _ _ _ _ E). lia.
  - exists (user_turn w0 prompt), (assistant_turn w r).
    rewrite <- app_assoc. repeat split. apply assistant_turn_role.
Qed.

Lemma in_respond_calls (page : list effect) (history : legacy_history)
    (prompt : string) :
  In (CallRespond history prompt) page <->
  In (history, prompt) (respond_calls page).
Proof.
  induction page as [| e page IH]; [reflexivity |].
  destruct e; cbn; rewrite ?IH; intuition (try discriminate; try congruence).
Qed.

(** What every reachable state satisfies, given a chatbot that adds at most
    one pair. *)
Lemma reachable_consistent (rt : runtime) :
  adds_at_most_one -> reachable rt ->
  Forall known_role (messages (session rt)) /\
  in_step (session rt) /\
  forall history prompt,
    In (CallRespond history prompt) (log rt) ->
    exists earlier u a,
      messages (session rt) = earlier ++ [u; a] /\
      role u = "user" /\ content u = Some prompt /\ role a = "assistant" /\
      history = gradio_format earlier.
Proof.
  intros Hone.
  assert (forall ev rt0,
            Forall known_role (messages (session rt0)) ->
            in_step (session rt0) ->
            Forall known_role (messages (session (execute ev rt0))) /\
            in_step (session (execute ev rt0)) /\
            forall history prompt,
              In (CallRespond history prompt) (log (execute ev rt0)) ->
              exists earlier u a,
                messages (session (execute ev rt0)) = earlier ++ [u; a] /\
                role u = "user" /\ content u = Some prompt /\
                role a = "assistant" /\ history = gradio_format earlier)
    as Hstep.
  { intros ev rt0 Hroles Hlen.
    destruct (execute_cases ev rt0)
      as [[S C] | [(_ & S & C) | (prompt & _ & _ & Hchat)]].
    - rewrite S. repeat split; try assumption.
      intros history prompt Hin. apply in_respond_calls in Hin.
      now rewrite C in Hin.
    - rewrite S. repeat split; [constructor | unfold in_step; cbn; lia |].
      intros history prompt Hin. apply in_respond_calls in Hin.
      now rewrite C in Hin.
    - destruct (chat_step_in_step _ _ _ _ Hone Hroles Hlen Hchat)
        as (Hroles' & Hlen' & C & u & a & Hm & Hu & Hc & Ha).
      repeat split; try assumption.
      intros history p Hin. apply in_respond_calls in Hin.
      rewrite C in Hin. destruct Hin as [[= <- <-] | []].
      exists (messages (session rt0)), u, a. auto. }
  induction 1 as [w key | rt ev _ IH _ | rt _ IH | rt w _ IH].
  - apply Hstep; [constructor | unfold in_step; cbn; lia].
  - apply Hstep; apply IH.
  - apply Hstep; apply IH.
  - exact IH.
Qed.



End Consistency.

(** * Worked executions on the test doubles *)

Lemma double_adds_at_most_one : adds_at_most_one (Ext := Double.collaborators).
Proof.
  intros history prompt w first updated w'.
  cbn [ChatBot_respond Double.collaborators]. unfold Double.respond.
  destruct (prompt =? "fail")%string; [discriminate |].
  destruct (prompt =? "none")%string; [discriminate |].
  destruct (prompt =? "empty")%string.
  - intros [= <- <- <-]. cbn. lia.
  - intros [= <- <- <-]. rewrite length_app. cbn. lia.
Qed.

(** A drawn effect is found on a page that has been computed. *)
Ltac on_page := repeat first [left; reflexivity | right].

Lemma double_reaches_first_page : reachable Double.first_page.
Proof. unfold Double.first_page. apply reach_load. Qed.

Lemma double_reaches_after_hi : reachable Double.after_hi.
Proof.
  unfold Double.after_hi.
  apply reach_event; [apply double_reaches_first_page |].
  split; [discriminate | vm_compute; on_page].
Qed.



(** After two answered prompts the stored legacy history has lost the first
    reply: lines 273-276 rebuilt it from the user turns alone. *)
Example second_prompt_drops_first_reply :
  let rt := execute (Some (Submit "yo")) Double.after_hi in
  gradio_chat_history (session Double.after_hi) = [(Some "hi", Some "echo hi")] /\
  respond_calls (log rt) = [([(Some "hi", None)], "yo")] /\
  gradio_chat_history (session rt) =
    [(Some "hi", None); (Some "yo", Some "echo yo")].
Proof. vm_compute. auto. Qed.

(** A click on the sidebar's Create All button with documents for the Swiss
    collection only: one run, then the rerun request. *)
Example create_all_on_the_double :
  let rt := execute (Some (Click sidebar_all_label)) Double.first_page in
  run_calls (log rt) = [Double.swiss_args] /\
  last (log rt) = Some CallRerun /\
  Double.files (world rt) = ["/app/data/swiss_db"; "/app/data/swiss"].
Proof. vm_compute. auto. Qed.

(** A Stories creation on the double fails for want of documents and is
    drawn as an error. *)
Example stories_creation_fails_inline :
  let rt := execute (Some (Click "stories_create")) Double.first_page in
  error_texts (log rt) =
    ["Error creating Stories database: no documents in data/stories"] /\
  length (run_calls (log rt)) = 1.
Proof. vm_compute. auto. Qed.

(** A configuration without the Stories section: the lookup fails with a
    [KeyError], drawn with the [repr] of the key. *)
Example missing_section_is_a_key_error :
  error_texts
    (added (create_stories_database (Ext := Double.collaborators) (YMap ∅))
           (Double.boot Double.office)) =
  ["Error creating Stories database: 'stories_rag'"].
Proof. vm_compute. reflexivity. Qed.


Lemma submitted_prompt_is_answered_witness :
  "fail" <> "" /\
  fst (chat_tab (Some (Submit "fail")) Double.first_page) = Done tt.
Proof.
  split; [discriminate |].
  exact (proj1 (submitted_prompt_is_answered (Ext := Double.collaborators)
                  "fail" Double.first_page ltac:(discriminate))).
Defined.

Lemma chatbot_is_called_once_witness :
  @ChatBot_respond Double.collaborators [] "hi" Double.office =
    (RespondReturns "" (Some [(Some "hi", Some "echo hi")]), Double.office) /\
  [(Some "hi", Some "echo hi")] <> ([] : legacy_history) /\
  gradio_chat_history
    (session (snd (chat_handler "hi" (Double.boot Double.office)))) =
  [(Some "hi", Some "echo hi")].
Proof.
  split; [reflexivity |]. split; [discriminate |].
  exact (proj1 (proj2 (chatbot_is_called_once (Ext := Double.collaborators)
                         "hi" (Double.boot Double.office))
                  "" [(Some "hi", Some "echo hi")] Double.office
                  eq_refl ltac:(discriminate))).
Defined.


Lemma readiness_is_path_existence_witness :
  subscript2 (Ext := Double.collaborators) Double.tools_config swiss_section
    "vectordb" = inr (YStr "data/swiss_db") /\
  added (sidebar_status Double.tools_config swiss_section)
        (Double.boot Double.office) =
  [Warning "⚠️ Not created"].
Proof.
  split; [reflexivity |].
  exact (proj1 (readiness_is_path_existence (Ext := Double.collaborators)
                  Swiss Double.tools_config (Double.boot Double.office)
                  "data/swiss_db" true None eq_refl)).
Defined.

Lemma creation_passes_the_six_fields_witness :
  configuration (Ext := Double.collaborators) Double.tools_config
    swiss_section = inr Double.swiss_args /\
  exists spinner rest,
    added (create_swiss_database Double.tools_config)
          (Double.boot Double.office) =
      Spinner spinner :: Placeholder :: CallInit Double.swiss_args :: rest /\
    init_calls rest = [] /\
    run_calls rest = [Double.swiss_args].
Proof.
  split; [reflexivity |].
  exact (proj1 (creation_passes_the_six_fields (Ext := Double.collaborators)
                  Swiss Double.tools_config (Double.boot Double.office)
                  (YInt 500) (YInt 100) (YStr "text-embedding-3-small")
                  (YStr "data/swiss_db") (YStr "swiss") (YStr "data/swiss")
                  eq_refl eq_refl eq_refl eq_refl eq_refl eq_refl)).
Defined.

Lemma double_reaches_keyless_page : reachable Double.keyless_page.
Proof. unfold Double.keyless_page. apply reach_load. Qed.

Lemma no_creation_without_api_key_witness :
  reachable Double.keyless_page /\
  truthy (api_key Double.keyless_page) = false /\
  run_calls (log Double.keyless_page) = [].
Proof.
  split; [apply double_reaches_keyless_page |]. split; [reflexivity |].
  exact (proj1 (proj1 (no_creation_without_api_key
                         (Ext := Double.collaborators) Double.keyless_page
                         double_reaches_keyless_page) eq_refl)).
Defined.


(** * Further properties of the script *)

Section CreateAll.
Context `{Ext : Collaborators}.

(** X1.  The body of the two Create All buttons.  When the Swiss helper
    succeeds, its rerun request ends the execution: the Stories helper is
    not entered and [run] has been called once.  When the Swiss helper
    fails, its error is drawn first and the Stories helper is entered; [run]
    is called at most twice and no exception leaves the body. *)
Theorem create_all_enters_stories_only_after_a_swiss_failure
    (app_config : yaml) (rt : runtime) :
  let page := added (create_all app_config) rt in
  let stories := Spinner "Creating Stories database..." in
  match creation_failure app_config swiss_section (world rt) with
  | None =>
      fst (create_all app_config rt) = Rerun /\
      success_texts page = [swiss_created] /\
      ~ In stories page /\
      length (run_calls page) = 1
  | Some e =>
      (forall e', fst (create_all app_config rt) <> Raised e') /\
      hd_error (error_texts page) = Some (swiss_failed +:+ str e) /\
      In stories page /\
      length (run_calls page) <= 2
  end.
Proof.
  cbn zeta. unfold added, create_all, bind, emit.
  unfold create_swiss_database, create_stories_database.
  rewrite create_database_cases.
  unfold creation_failure, creation_result.
  cbn [world api_key session log].
  destruct (configuration app_config swiss_section) as [e | args].
  2: destruct (PrepareVectorDB_init args (world rt)) as [[e |] w1].
  3: destruct (PrepareVectorDB_run args w1) as [[e |] w2].
  4: { cbn [fst snd after log]. rewrite <- !app_assoc, drop_app_length.
       cbn. intuition discriminate. }
  all: cbn [fst snd after log world api_key session];
    rewrite create_database_cases; unfold creation_result;
    cbn [world api_key session log];
    destruct (configuration app_config stories_section) as [e2 | args2];
    [| destruct (PrepareVectorDB_init args2 _) as [[e2 |] w3];
       [| destruct (PrepareVectorDB_run args2 w3) as [[e2 |] w4]]];
    cbn [fst snd after log]; rewrite <- !app_assoc, drop_app_length;
    cbn; repeat split; try discriminate; try lia; auto 10.
Qed.

End CreateAll.

Section ChatDetails.
Context `{Ext : Collaborators}.

(** X2.  What the handler hands to the chatbot (lines 273-279): when the
    stored legacy history is not longer than the list of earlier user turns,
    it is replaced by exactly these turns, each with no reply; a longer one
    is handed over as it is. *)
Theorem chatbot_receives_rebuilt_history (prompt : string) (rt : runtime) :
  let earlier := gradio_format (messages (session rt)) in
  let stored := gradio_chat_history (session rt) in
  respond_calls (added (chat_handler prompt) rt) =
  [(if (length stored <=? length earlier)%nat then earlier else stored,
    prompt)].
Proof.
  cbn zeta.
  destruct (added_chat_handler prompt rt) as (r & w & _ & -> & _).
  cbn zeta. unfold synced.
  rewrite gradio_format_app, gradio_format_user, length_app. cbn [length].
  replace (length (gradio_chat_history (session rt)) <?
           length (gradio_format (messages (session rt))) + 1)%nat
    with (length (gradio_chat_history (session rt)) <=?
          length (gradio_format (messages (session rt))))%nat.
  2: { destruct (Nat.leb_spec (length (gradio_chat_history (session rt)))
                   (length (gradio_format (messages (session rt)))));
       destruct (Nat.ltb_spec (length (gradio_chat_history (session rt)))
                   (length (gradio_format (messages (session rt))) + 1));
       (reflexivity || lia). }
  rewrite List.removelast_last.
  destruct r as [e | first [[| p ps] |]]; reflexivity.
Qed.


End ChatDetails.

Section PageDetails.
Context `{Ext : Collaborators}.

(** X4.  An execution calls the chatbot at most once, and only when it was
    triggered by a submitted text that is not empty; the call then carries
    that text. *)
Theorem chatbot_is_called_for_submitted_text_only (ev : option event)
    (rt : runtime) :
  respond_calls (log (execute ev rt)) = [] \/
  exists history prompt,
    ev = Some (Submit prompt) /\ prompt <> "" /\
    respond_calls (log (execute ev rt)) = [(history, prompt)].
Proof.
  destruct (execute_cases ev rt)
    as [[_ C] | [(_ & _ & C) | (prompt & Hev & Hp & w0 & r & w & _ & _ & C)]];
    [now left | now left | right; eauto].
Qed.

End PageDetails.


Section Turns.
Context `{Ext : Collaborators}.

Lemma alternates_app (msgs tail : list message) :
  alternates msgs = true -> alternates (msgs ++ tail) = alternates tail.
Proof.
  assert (forall n msgs, length msgs <= n -> alternates msgs = true ->
                         alternates (msgs ++ tail) = alternates tail) as H.
  { induction n as [| n IH]; intros [| u [| a rest]] Hn Halt;
      cbn in *; try reflexivity; try discriminate; try lia.
    apply andb_prop in Halt as [-> Hrest]. apply IH; [lia | exact Hrest]. }
  eauto.
Qed.

Lemma alternates_user_turns (msgs : list message) :
  alternates msgs = true ->
  length msgs = 2 * length (gradio_format msgs).
Proof.
  assert (forall n msgs, length msgs <= n -> alternates msgs = true ->
                         length msgs = 2 * length (gradio_format msgs)) as H.
  { induction n as [| n IH]; intros [| u [| a rest]] Hn Halt;
      cbn in *; try reflexivity; try discriminate; try lia.
    apply andb_prop in Halt as [Hroles Hrest].
    apply andb_prop in Hroles as [Hu Ha].
    apply String.eqb_eq in Ha. unfold gradio_format in *. cbn.
    rewrite Hu, Ha. cbn. rewrite (IH rest) by (lia || assumption). lia. }
  eauto.
Qed.

Lemma alternates_turn (w0 w : World) (prompt : string) (r : respond_result) :
  alternates [user_turn w0 prompt; assistant_turn w r] = true.
Proof. cbn. now rewrite assistant_turn_role. Qed.

Lemma reachable_alternates (rt : runtime) :
  reachable rt -> alternates (messages (session rt)) = true.
Proof.
  assert (forall ev rt0, alternates (messages (session rt0)) = true ->
                         alternates (messages (session (execute ev rt0))) = true)
    as Hstep.
  { intros ev rt0 Halt.
    destruct (execute_cases ev rt0)
      as [[-> _] | [(_ & -> & _) | (p & _ & _ & w0 & r & w & _ & -> & _)]];
      [assumption | reflexivity |].
    cbn [messages]. rewrite <- app_assoc. cbn [app].
    rewrite alternates_app by assumption. apply alternates_turn. }
  induction 1; auto.
Qed.

(** X5.  In every reachable state the message list alternates between user
    and assistant turns, the user first, so it holds twice as many turns as
    prompts; the sidebar is silent about an empty list and otherwise shows
    the number of turns as "Messages" and the number of prompts as
    "Conversations". *)
Theorem message_list_alternates (rt : runtime) (Hreach : reachable rt) :
  let msgs := messages (session rt) in
  let prompts := length (gradio_format msgs) in
  alternates msgs = true /\
  length msgs = 2 * prompts /\
  added session_stats rt =
    match prompts with
    | 0 => []
    | S _ => [Metric "Messages" (2 * prompts); Metric "Conversations" prompts]
    end.
Proof.
  cbn zeta. pose proof (reachable_alternates rt Hreach) as Halt.
  pose proof (alternates_user_turns _ Halt) as Hlen.
  split; [exact Halt |]. split; [exact Hlen |].
  unfold added, session_stats, bind, get_session, emit, ret.
  destruct (messages (session rt)) as [| m msgs] eqn:E.
  - cbn. now rewrite drop_all.
  - rewrite Hlen.
    destruct (length (gradio_format (m :: msgs))) as [| n] eqn:En;
      [cbn in Hlen; lia |].
    cbn [world api_key session log snd].
    rewrite <- app_assoc, drop_app_length.
    replace (2 * S n / 2) with (S n) by (apply Nat.div_unique_exact; lia).
    reflexivity.
Qed.

(** X6.  With a chatbot that adds at most one pair to the history it is
    given, no reply ever goes back to it: in every reachable state, the
    history of each call on the page has one pair for each earlier prompt,
    and the reply of every pair is [None]. *)
Theorem chatbot_never_sees_a_reply (Hone : adds_at_most_one) (rt : runtime)
    (Hreach : reachable rt) (history : legacy_history) (prompt : string) :
  In (CallRespond history prompt) (log rt) ->
  Forall (fun pair => snd pair = None) history /\
  S (length history) = length (gradio_format (messages (session rt))).
Proof.
  intros Hin.
  destruct (reachable_consistent rt Hone Hreach) as (_ & _ & Hcalls).
  destruct (Hcalls history prompt Hin) as (earlier & u & a & -> & Hu & _ & Ha & ->).
  split.
  - unfold gradio_format. apply List.Forall_forall. intros pair Hp.
    apply in_map_iff in Hp as (m & <- & _). reflexivity.
  - rewrite gradio_format_app. unfold gradio_format at 3. cbn.
    rewrite Hu, Ha. cbn. rewrite length_app. cbn. lia.
Qed.

End Turns.

Lemma double_reaches_after_yo : reachable Double.after_yo.
Proof.
  unfold Double.after_yo.
  apply reach_event; [apply double_reaches_after_hi |].
  split; [discriminate | vm_compute; on_page].
Qed.

Lemma message_list_alternates_witness :
  reachable Double.after_yo /\
  length (messages (session Double.after_yo)) = 4.
Proof.
  split; [apply double_reaches_after_yo |].
  exact (proj1 (proj2 (message_list_alternates (Ext := Double.collaborators)
                         Double.after_yo double_reaches_after_yo))).
Defined.

Lemma chatbot_never_sees_a_reply_witness :
  adds_at_most_one (Ext := Double.collaborators) /\
  reachable Double.after_yo /\
  In (CallRespond [(Some "hi", None)] "yo") (log Double.after_yo) /\
  Forall (fun pair : legacy_pair => snd pair = None) [(Some "hi", None)].
Proof.
  split; [apply double_adds_at_most_one |].
  split; [apply double_reaches_after_yo |].
  assert (In (CallRespond [(Some "hi", None)] "yo") (log Double.after_yo))
    as Hin by (vm_compute; on_page).
  split; [exact Hin |].
  exact (proj1 (chatbot_never_sees_a_reply (Ext := Double.collaborators)
                  double_adds_at_most_one Double.after_yo
                  double_reaches_after_yo [(Some "hi", None)] "yo" Hin)).
Defined.

#[global] Instance same_world_preorder `{Ext : Collaborators}
  : PreOrder same_world.
Proof. split; unfold same_world; congruence. Qed.

Section World.
Context `{Ext : Collaborators}.

Lemma world_emit (e : effect) : stable same_world (emit e).
Proof. intros rt. reflexivity. Qed.

Lemma world_rerun {A} : stable same_world (st_rerun (A := A)).
Proof. intros rt. reflexivity. Qed.

Lemma world_put_session (s : session_state) :
  stable same_world (put_session s).
Proof. intros rt. reflexivity. Qed.

End World.

(** The structure of a piece whose calls are all ruled out by the event. *)
Ltac world_step :=
  lazymatch goal with
  | |- stable _ (bind (st_button _ _ _) _) =>
      apply stable_button_when; try exact _; [| intros ?]
  | |- stable _ (bind _ _) => apply stable_bind; try exact _; [| intros ?]
  | |- stable _ (try_except _ _) =>
      apply stable_try; try exact _; [| intros ?]
  | |- stable _ (when _ _) => apply stable_when; try exact _; intros ?
  | |- stable _ (ret _) => apply stable_ret; exact _
  | |- stable _ (raise _) => apply stable_raise; exact _
  | |- stable _ (lift _) => apply stable_lift; exact _
  | |- stable _ (ask_world _) => apply stable_ask_world; exact _
  | |- stable _ get_session => apply stable_get_session; exact _
  | |- stable _ api_key_available => apply stable_api_key_available; exact _
  | |- stable _ (put_session _) => apply world_put_session
  | |- stable _ st_rerun => apply world_rerun
  | |- stable _ (emit _) => apply world_emit
  | |- stable _ (call_world _) => fail
  | |- stable _ (match ?x with _ => _ end) => destruct x
  | |- stable _ _ => progress autounfold with script
  end.

Ltac not_idle H Hidle :=
  exfalso; rewrite H in Hidle; cbn in Hidle;
  destruct Hidle as [_ Hidle]; apply Hidle; listed.

Section Idle.
Context `{Ext : Collaborators}.

Lemma sidebar_world (ev : option event) :
  idle ev -> stable same_world (sidebar ev).
Proof.
  intros Hidle. unfold sidebar, clear_chat. repeat world_step;
    match goal with H : ev = Some (Click _) |- _ => not_idle H Hidle end.
Qed.

Lemma database_tab_world (ev : option event) :
  idle ev -> stable same_world (database_tab ev).
Proof.
  intros Hidle. unfold database_tab. repeat world_step;
    match goal with H : ev = Some (Click _) |- _ => not_idle H Hidle end.
Qed.

(** X7.  A first load, a rerun, a click on a button that is neither Clear
    Chat nor a creation button, and an empty submission only draw the page:
    the session state and the collaborators' world are as before, and
    neither the chatbot nor the builder is called. *)
Theorem idle_execution_only_draws (ev : option event) (rt : runtime)
    (Hidle : idle ev) :
  session (execute ev rt) = session rt /\
  world (execute ev rt) = world rt /\
  respond_calls (log (execute ev rt)) = [] /\
  init_calls (log (execute ev rt)) = [] /\
  run_calls (log (execute ev rt)) = [].
Proof.
  assert (forall widget, ev = Some (Click widget) ->
                         ~ In widget creation_buttons) as Hclick.
  { intros widget ->. exact (proj2 Hidle). }
  assert (forall prompt, ev = Some (Submit prompt) -> prompt = "") as Htext.
  { now intros prompt ->. }
  assert (session (execute ev rt) = session rt /\
          respond_calls (log (execute ev rt)) = []) as [S C].
  { destruct (execute_cases ev rt)
      as [[S C] | [(-> & _) | (prompt & Hev & Hp & _)]]; [auto | |].
    - now destruct Hidle.
    - now destruct (Hp (Htext prompt Hev)). }
  destruct (execute_page ev rt) as [_ (page & L & F)].
  cbn [load_dotenv blank snd log] in L. cbn [app] in L.
  rewrite List.Forall_forall in F.
  repeat split; try assumption.
  - unfold execute. rewrite app_after_dotenv.
    change (world rt) with (world (snd (load_dotenv (blank rt)))).
    generalize (snd (load_dotenv (blank rt))). intros rt0.
    change (same_world rt0
              (snd ((sidebar ev >> chat_tab ev >> database_tab ev) rt0))).
    revert rt0.
    change (stable same_world (sidebar ev >> chat_tab ev >> database_tab ev)).
    apply stable_bind; try exact _; [now apply sidebar_world |].
    intros _. apply stable_bind; try exact _;
      [| intros _; now apply database_tab_world].
    intros rt0. now rewrite chat_tab_idle.
  - apply empty_list. intros args Hin. apply in_init_calls in Hin.
    rewrite L in Hin. destruct (F _ Hin) as (widget & Hev & Hw).
    exact (Hclick widget Hev Hw).
  - apply empty_list. intros args Hin. apply in_run_calls in Hin.
    rewrite L in Hin. destruct (F _ Hin) as (widget & Hev & Hw).
    exact (Hclick widget Hev Hw).
Qed.

End Idle.

Lemma idle_execution_only_draws_witness :
  idle (Some (Click clear_cache_label)) /\
  session (execute (Some (Click clear_cache_label)) Double.after_hi) =
  session Double.after_hi.
Proof.
  assert (idle (Some (Click clear_cache_label))) as Hidle.
  { split; [discriminate |]. intros H. unlisted H. }
  split; [exact Hidle |].
  exact (proj1 (idle_execution_only_draws (Ext := Double.collaborators)
                  (Some (Click clear_cache_label)) Double.after_hi Hidle)).
Defined.

Section Configuration.
Context `{Ext : Collaborators}.

Lemma clear_chat_not_clicked (ev : option event) (rt : runtime) :
  ev <> Some (Click clear_chat_label) ->
  clear_chat ev rt =
  (Done tt, after rt (world rt) [Button clear_chat_label false]).
Proof.
  intros Hne. unfold clear_chat, st_button, bind, emit, ret.
  cbn [world api_key session log].
  destruct ev as [[w | p] |]; try reflexivity.
  destruct (String.eqb_spec w clear_chat_label) as [-> | _];
    [contradiction | reflexivity].
Qed.

(** The two sidebar metrics as a list. *)
Lemma session_stats_page (rt : runtime) :
  session_stats rt =
  (Done tt,
   after rt (world rt)
     match messages (session rt) with
     | [] => []
     | _ :: _ =>
         [Metric "Messages" (length (messages (session rt)));
          Metric "Conversations" (length (messages (session rt)) / 2)]
     end).
Proof.
  unfold session_stats, bind, get_session, emit, ret, after.
  destruct rt as [w key [msgs history] page].
  cbn [world api_key session log messages].
  destruct msgs; [now rewrite app_nil_r | now rewrite <- app_assoc].
Qed.

(** X8.  When the configuration cannot be loaded, each of the two places
    that load it draws "Could not load config: " followed by [str(e)] and
    nothing more: no readiness indicator and no creation button appear, the
    sidebar keeps Clear Chat and the metrics, and the chat tab is not
    affected. *)
Theorem unreadable_configuration_is_reported (ev : option event)
    (rt : runtime) (e : exn) (Hload : load_config (world rt) = inl e) :
  let text := "Could not load config: " +:+ str e in
  database_tab ev rt = (Done tt, after rt (world rt) [Error text]) /\
  (ev <> Some (Click clear_chat_label) ->
   sidebar ev rt =
   (Done tt,
    after rt (world rt)
      (Button clear_chat_label false ::
       match messages (session rt) with
       | [] => []
       | _ :: _ =>
           [Metric "Messages" (length (messages (session rt)));
            Metric "Conversations" (length (messages (session rt)) / 2)]
       end ++ [Error text])) /\
   (sidebar ev >> chat_tab ev) rt =
     chat_tab ev (snd (sidebar ev rt))).
Proof.
  cbn zeta. split.
  - unfold database_tab, load_app_config, bind, ask_world. rewrite Hload.
    reflexivity.
  - intros Hne.
    assert (sidebar ev rt =
            (Done tt,
             after rt (world rt)
               (Button clear_chat_label false ::
                match messages (session rt) with
                | [] => []
                | _ :: _ =>
                    [Metric "Messages" (length (messages (session rt)));
                     Metric "Conversations"
                       (length (messages (session rt)) / 2)]
                end ++ [Error ("Could not load config: " +:+ str e)])))
      as Hside.
    { unfold sidebar. unfold bind at 1. rewrite (clear_chat_not_clicked _ _ Hne).
      unfold bind at 1. rewrite session_stats_page.
      unfold load_app_config, bind, ask_world.
      cbn [world api_key session log after]. rewrite Hload.
      unfold emit, ret, after. cbn [world api_key session log].
      now rewrite <- !app_assoc. }
    split; [exact Hside |]. unfold bind. now rewrite Hside.
Qed.

Lemma bind_done {A B} (m : script A) (k : A -> script B) (rt rt1 : runtime)
    (a : A) :
  m rt = (Done a, rt1) -> bind m k rt = k a rt1.
Proof. intros E. unfold bind. now rewrite E. Qed.

Lemma bind_raised {A B} (m : script A) (k : A -> script B)
    (rt rt1 : runtime) (e : exn) :
  m rt = (Raised e, rt1) -> bind m k rt = (Raised e, rt1).
Proof. intros E. unfold bind. now rewrite E. Qed.

Lemma load_app_config_loaded (rt : runtime) (app_config : yaml) :
  load_config (world rt) = inr app_config ->
  load_app_config rt = (Done (Some app_config), rt).
Proof.
  intros E. unfold load_app_config, bind, ask_world. now rewrite E.
Qed.

Lemma sidebar_stops (ev : option event) (rt : runtime) (app_config : yaml)
    (e : exn) :
  load_config (world rt) = inr app_config ->
  subscript2 app_config swiss_section "vectordb" = inl e ->
  ev <> Some (Click clear_chat_label) ->
  sidebar ev rt = (Raised e, after rt (world rt) (sidebar_head rt)).
Proof.
  intros Hload Hentry Hne. unfold sidebar.
  rewrite (bind_done _ _ _ _ _ (clear_chat_not_clicked _ _ Hne)).
  rewrite (bind_done _ _ _ _ _ (session_stats_page _)).
  rewrite (bind_done _ _ _ _ (Some app_config))
    by (now apply load_app_config_loaded).
  rewrite (bind_done _ _ _ _ (truthy (api_key rt))) by reflexivity.
  assert (forall rt1, sidebar_status app_config swiss_section rt1 =
                      (Raised e, rt1)) as Hstatus.
  { intros rt1. unfold sidebar_status, bind, lift. now rewrite Hentry. }
  unfold sidebar_head, after. cbn [world api_key session log].
  destruct (truthy (api_key rt)); cbn [negb when].
  - rewrite (bind_done _ _ _ _ tt) by reflexivity.
    rewrite (bind_raised _ _ _ _ e) by apply Hstatus.
    now rewrite app_nil_r, <- !app_assoc.
  - erewrite bind_done by reflexivity.
    rewrite (bind_raised _ _ _ _ e) by apply Hstatus.
    unfold bind, emit. cbn [world api_key session log snd].
    now rewrite <- !app_assoc.
Qed.

(** X9.  The sidebar reads the Swiss [vectordb] entry outside any [try]:
    when the configuration loads but the entry cannot be read, the exception
    leaves the script during the sidebar.  The chat input and the manager
    tab are never drawn, no creation button appears, the session state and
    the world stay as they were. *)
Theorem unreadable_vectordb_entry_stops_the_page (ev : option event)
    (rt : runtime) (app_config : yaml) (e : exn)
    (Hload : load_config (world rt) = inr app_config)
    (Hentry : subscript2 app_config swiss_section "vectordb" = inl e)
    (Hne : ev <> Some (Click clear_chat_label)) :
  fst (app ev rt) = Raised e /\
  ~ In ChatInput (added (app ev) rt) /\
  (forall widget disabled,
     In (Button widget disabled) (added (app ev) rt) ->
     widget = clear_chat_label) /\
  session (snd (app ev rt)) = session rt /\
  world (snd (app ev rt)) = world rt.
Proof.
  unfold added. rewrite app_after_dotenv.
  rewrite (bind_raised _ _ _ _ e
             (sidebar_stops ev (snd (load_dotenv rt)) app_config e
                Hload Hentry Hne)).
  cbn [fst snd after log session world load_dotenv].
  rewrite drop_app_length. unfold sidebar_head.
  cbn [session api_key].
  repeat split.
  - destruct (messages (session rt));
      destruct (truthy _); cbn; intuition discriminate.
  - intros widget disabled.
    destruct (messages (session rt));
      destruct (truthy _); cbn;
      intuition (try discriminate; congruence).
Qed.

End Configuration.

Lemma unreadable_configuration_is_reported_witness :
  load_config (world (Double.boot Double.unconfigured)) =
    inl (Exception "No such file: configs/tools_config.yml") /\
  database_tab None (Double.boot Double.unconfigured) =
    (Done tt,
     after (Double.boot Double.unconfigured) Double.unconfigured
       [Error "Could not load config: No such file: configs/tools_config.yml"]).
Proof.
  split; [reflexivity |].
  exact (proj1 (unreadable_configuration_is_reported
                  (Ext := Double.collaborators) None
                  (Double.boot Double.unconfigured)
                  (Exception "No such file: configs/tools_config.yml")
                  eq_refl)).
Defined.

Lemma unreadable_vectordb_entry_stops_the_page_witness :
  load_config (world (Double.boot Double.hollow)) = inr (YMap ∅) /\
  subscript2 (Ext := Double.collaborators) (YMap ∅) swiss_section "vectordb" =
    inl (KeyError "swiss_airline_policy_rag") /\
  None <> Some (Click clear_chat_label) /\
  fst (app None (Double.boot Double.hollow)) =
    Raised (KeyError "swiss_airline_policy_rag").
Proof.
  split; [reflexivity |]. split; [reflexivity |]. split; [discriminate |].
  exact (proj1 (unreadable_vectordb_entry_stops_the_page
                  (Ext := Double.collaborators) None
                  (Double.boot Double.hollow) (YMap ∅)
                  (KeyError "swiss_airline_policy_rag")
                  eq_refl eq_refl ltac:(discriminate))).
Defined.

(** A button with its flag: a creation button follows the key, any other is
    enabled. *)
Ltac button_ok :=
  intros; cbn;
  first [ exact I
        | split;
          [ let H := fresh in intros H; first [congruence | unlisted H]
          | let H := fresh in
            intros H; first [reflexivity | exfalso; apply H; listed] ] ].

Section Buttons.
Context `{Ext : Collaborators}.

Lemma sidebar_buttons (ev : option event) :
  stable (draws button_audit) (sidebar ev).
Proof. unfold sidebar, clear_chat. script_steps; button_ok. Qed.

Lemma database_tab_buttons (ev : option event) :
  stable (draws button_audit) (database_tab ev).
Proof. unfold database_tab. script_steps; button_ok. Qed.

Lemma chat_tab_buttons (ev : option event) :
  stable (draws button_audit) (chat_tab ev).
Proof.
  unfold chat_tab. script_steps; try button_ok.
  unfold chat_handler, sync_history, ask_chatbot, append_message,
    store_history.
  script_steps; button_ok.
Qed.

(** X10.  On the page of any execution a button is disabled exactly when it
    is one of the six creation buttons and the API key that the execution
    found is unset or empty; Clear Chat and Clear Database Cache are always
    enabled. *)
Theorem button_is_disabled_for_want_of_a_key (ev : option event)
    (rt : runtime) (widget : string) (disabled : bool) :
  In (Button widget disabled) (log (execute ev rt)) ->
  disabled =
  existsb (String.eqb widget) creation_buttons &&
  negb (truthy (api_key (execute ev rt))).
Proof.
  intros Hin.
  assert (draws button_audit (snd (load_dotenv (blank rt))) (execute ev rt))
    as [K (page & L & F)].
  { unfold execute. rewrite app_after_dotenv.
    generalize (snd (load_dotenv (blank rt))).
    change (stable (draws button_audit)
              (sidebar ev >> chat_tab ev >> database_tab ev)).
    apply stable_bind; try exact _; [apply sidebar_buttons |].
    intros _. apply stable_bind; try exact _; [apply chat_tab_buttons |].
    intros _. apply database_tab_buttons. }
  rewrite L in Hin. cbn [load_dotenv blank snd log] in Hin. cbn [app] in Hin.
  rewrite List.Forall_forall in F. destruct (F _ Hin) as [Hyes Hno].
  rewrite K.
  destruct (existsb (String.eqb widget) creation_buttons) eqn:E.
  - apply existsb_exists in E as (w & Hw & Heq).
    apply String.eqb_eq in Heq. subst w. now apply Hyes.
  - cbn. apply Hno. intros Hw.
    assert (existsb (String.eqb widget) creation_buttons = true) as E'
      by (apply existsb_exists; exists widget; split;
          [exact Hw | apply String.eqb_refl]).
    congruence.
Qed.

End Buttons.

Lemma button_is_disabled_for_want_of_a_key_witness :
  In (Button "swiss_create" true) (log Double.keyless_page) /\
  true =
  existsb (String.eqb "swiss_create") creation_buttons &&
  negb (truthy (api_key Double.keyless_page)).
Proof.
  assert (In (Button "swiss_create" true) (log Double.keyless_page)) as Hin
    by (vm_compute; on_page).
  split; [exact Hin |].
  exact (button_is_disabled_for_want_of_a_key (Ext := Double.collaborators)
           None (Double.boot Double.keyless) "swiss_create" true Hin).
Defined.

Section Incomplete.
Context `{Ext : Collaborators}.

(** X11.  A helper whose section of the configuration is a mapping that
    lacks some of the six fields stops at the first missing one, in the
    order of the source: it draws the helper's prefix followed by the quoted
    name of that field, constructs nothing, calls nothing and returns
    normally. *)
Theorem incomplete_section_names_first_missing_field (c : collection)
    (app_config : yaml) (rt : runtime) (fields : gmap string yaml)
    (field : string) (others : list string)
    (Hsection : subscript app_config (section_of c) = inr (YMap fields))
    (Hmissing :
       List.filter (fun f => bool_decide (fields !! f = None)) six_fields =
       field :: others) :
  exists spinner,
    create_of c app_config rt =
    (Done tt,
     after rt (world rt)
       [Spinner spinner; Error (failed_of c +:+ "'" +:+ field +:+ "'")]).
Proof.
  destruct (create_of_cases c app_config rt) as [spinner E].
  exists spinner. rewrite E. unfold creation_result, configuration, subscript2.
  rewrite Hsection. unfold subscript, six_fields in *. cbn [List.filter] in Hmissing.
  destruct (fields !! "chunk_size") as [v1 |];
    [rewrite bool_decide_eq_false_2 in Hmissing by discriminate
    | injection Hmissing as <- _; reflexivity].
  destruct (fields !! "chunk_overlap") as [v2 |];
    [rewrite bool_decide_eq_false_2 in Hmissing by discriminate
    | injection Hmissing as <- _; reflexivity].
  destruct (fields !! "embedding_model") as [v3 |];
    [rewrite bool_decide_eq_false_2 in Hmissing by discriminate
    | injection Hmissing as <- _; reflexivity].
  destruct (fields !! "vectordb") as [v4 |];
    [rewrite bool_decide_eq_false_2 in Hmissing by discriminate
    | injection Hmissing as <- _; reflexivity].
  destruct (fields !! "collection_name") as [v5 |];
    [rewrite bool_decide_eq_false_2 in Hmissing by discriminate
    | injection Hmissing as <- _; reflexivity].
  destruct (fields !! "unstructured_docs") as [v6 |];
    [rewrite bool_decide_eq_false_2 in Hmissing by discriminate
    | injection Hmissing as <- _; reflexivity].
  discriminate.
Qed.

(** X12.  After a click on Clear Chat the next prompt starts afresh: the
    chatbot is called with an empty history, and the message list holds the
    two turns of that prompt alone. *)
Theorem prompt_after_clear_chat_starts_afresh (prompt : string)
    (rt : runtime) :
  let cleared := execute (Some (Click clear_chat_label)) rt in
  respond_calls (added (chat_handler prompt) cleared) = [([], prompt)] /\
  length (messages (session (snd (chat_handler prompt cleared)))) = 2.
Proof.
  cbn zeta.
  assert (session (execute (Some (Click clear_chat_label)) rt) =
          initial_session) as S
    by (unfold execute; now rewrite app_clear).
  destruct (added_chat_handler prompt
              (execute (Some (Click clear_chat_label)) rt))
    as (r & w & _ & -> & ->).
  cbn zeta. rewrite S. cbn [messages gradio_chat_history initial_session].
  split; [| reflexivity].
  destruct r as [e | first [[| p ps] |]]; reflexivity.
Qed.

End Incomplete.

Lemma incomplete_section_names_first_missing_field_witness :
  subscript (Ext := Double.collaborators) Double.partial_config
    stories_section = inr (YMap Double.partial_fields) /\
  List.filter (fun f => bool_decide (Double.partial_fields !! f = None))
    six_fields =
    ["chunk_overlap"; "embedding_model"; "vectordb"; "collection_name";
     "unstructured_docs"] /\
  exists spinner,
    create_stories_database (Ext := Double.collaborators)
      Double.partial_config (Double.boot Double.office) =
    (Done tt,
     after (Double.boot Double.office) Double.office
       [Spinner spinner;
        Error "Error creating Stories database: 'chunk_overlap'"]).
Proof.
  assert (subscript (Ext := Double.collaborators) Double.partial_config
            stories_section = inr (YMap Double.partial_fields)) as Hsection
    by (vm_compute; reflexivity).
  assert (List.filter
            (fun f => bool_decide (Double.partial_fields !! f = None))
            six_fields =
          ["chunk_overlap"; "embedding_model"; "vectordb"; "collection_name";
           "unstructured_docs"]) as Hmissing by (vm_compute; reflexivity).
  split; [exact Hsection |]. split; [exact Hmissing |].
  exact (incomplete_section_names_first_missing_field
           (Ext := Double.collaborators) Stories Double.partial_config
           (Double.boot Double.office) Double.partial_fields "chunk_overlap"
           ["embedding_model"; "vectordb"; "collection_name";
            "unstructured_docs"] Hsection Hmissing).
Defined.
